(** * ApexSim: menu flow and button hover effects

    A shallow embedding of the two stateful classes of the ApexSim game
    layer:

    - [UMainMenuWidget] (MainMenuWidget.h / MainMenuWidget.cpp): the hover
      effect manager of the four main-menu buttons;
    - [UApexSimGameInstance] (ApexSimGameInstance.h / .cpp): the startup
      flow, loading screen then main menu.

    C++ [float] values are IEEE-754 binary32 numbers, taken from the
    Standard Library's [SpecFloat]; pointers are optional addresses, the
    null pointer being [None]; methods are computations in a state and
    failure monad, where failure stands for dereferencing a pointer that
    designates no object. *)

From Stdlib Require Import ZArith List Bool.
From Stdlib Require Import Floats.SpecFloat.
From stdpp Require Import base option gmap.

Local Open Scope Z_scope.

(** ** Single-precision numbers *)

Module Float32.

Definition float : Type := spec_float.

Definition prec : Z := 24.
Definition emax : Z := 128.

Definition mul : float -> float -> float := SFmul prec emax.
Definition add : float -> float -> float := SFadd prec emax.
Definition div : float -> float -> float := SFdiv prec emax.
Definition leb : float -> float -> bool := SFleb.

Definition of_Z (z : Z) : float := binary_normalize prec emax z 0 false.

(** The literal [n/d] written in decimal in the source, e.g. [1.05f] is
    [decimal 105 100]: the quotient of two exactly representable numbers,
    rounded to nearest. *)
Definition decimal (n d : Z) : float := div (of_Z n) (of_Z d).

End Float32.

Abbreviation float := Float32.float.

(** ** State and failure monad

    A method running in a state of type [S] either fails (a null or dangling
    pointer was dereferenced) or returns a value and the next state. *)

Definition St (S T : Type) : Type := S -> option (T * S).

Definition ret {S T} (x : T) : St S T := fun s => Some (x, s).

Definition bind {S T U} (m : St S T) (k : T -> St S U) : St S U :=
  fun s => match m s with
           | Some (x, s') => k x s'
           | None => None
           end.

Definition crash {S T} : St S T := fun _ => None.

Notation "x <- m ;; k" := (bind m (fun x => k))
  (at level 100, m at level 99, k at level 200, right associativity).
Notation "m ;; k" := (bind m (fun _ => k))
  (at level 100, k at level 200, right associativity).

(** ** Engine value types used by the widget *)

(** Addresses of engine objects.  A C++ pointer is an [option ptr]. *)
Definition ptr : Type := positive.

(** [FVector2D(InX, InY)].  A component holds the value it is built from;
    widening a [float] to the vector's component type is exact. *)
Record FVector2D : Type := mkVector2D { X : float; Y : float }.

(** [FWidgetTransform]: translation, scale, shear and angle. *)
Record FWidgetTransform : Type := mkWidgetTransform {
  Translation : FVector2D;
  Scale : FVector2D;
  Shear : FVector2D;
  Angle : float
}.

(** [FLinearColor(R, G, B, A)]. *)
Record FLinearColor : Type := mkLinearColor {
  R : float; G : float; B : float; A : float
}.

(** Modelled from the spec: [FLinearColor::operator*] belongs to the engine
    and is not part of the sources; the spec gives it as the product channel
    by channel, alpha included, without clamping. *)
Definition LinearColor_mul (c d : FLinearColor) : FLinearColor :=
  mkLinearColor (Float32.mul (R c) (R d)) (Float32.mul (G c) (G d))
                (Float32.mul (B c) (B d)) (Float32.mul (A c) (A d)).

(** Sound assets are opaque handles. *)
Definition USoundBase : Type := positive.

(** ** The main menu widget *)

Module MainMenu.

(** The eight [UFUNCTION] handlers bound to the buttons' delegates. *)
Inductive Handler : Type :=
| OnPlayButtonHovered_fn | OnPlayButtonUnhovered_fn
| OnSettingsButtonHovered_fn | OnSettingsButtonUnhovered_fn
| OnContentButtonHovered_fn | OnContentButtonUnhovered_fn
| OnQuitButtonHovered_fn | OnQuitButtonUnhovered_fn.

(** The part of a [UButton] the widget reads and writes. *)
Record UButton : Type := mkButton {
  RenderTransform : FWidgetTransform;
  ColorAndOpacity : FLinearColor;
  OnHovered : list Handler;
  OnUnhovered : list Handler
}.

(** The fields of [UMainMenuWidget] (MainMenuWidget.h). *)
Record UMainMenuWidget : Type := mkWidget {
  HoverScaleMultiplier : float;
  HoverAnimationDuration : float;
  HoverColorTint : FLinearColor;
  bPlaySoundOnHover : bool;
  HoverSound : option USoundBase;
  PlayButton : option ptr;
  SettingsButton : option ptr;
  ContentButton : option ptr;
  QuitButton : option ptr;
  OriginalTransforms : gmap ptr FWidgetTransform;
  OriginalColors : gmap ptr FLinearColor
}.

(** The state the methods run in: the widget itself, the button objects
    it points to, and the sounds handed to the audio device so far (most
    recent first). *)
Record Game : Type := mkGame {
  This : UMainMenuWidget;
  Buttons : gmap ptr UButton;
  Played : list USoundBase
}.

Definition M : Type -> Type := St Game.

Definition this : M UMainMenuWidget := fun g => Some (This g, g).

(** *** Engine calls on buttons, maps and audio *)

Definition deref (b : ptr) : M UButton :=
  fun g => match Buttons g !! b with
           | Some o => Some (o, g)
           | None => None
           end.

Definition store (b : ptr) (o : UButton) : M unit :=
  fun g => Some (tt, mkGame (This g) (<[b := o]> (Buttons g)) (Played g)).

Definition GetRenderTransform (b : ptr) : M FWidgetTransform :=
  o <- deref b ;; ret (RenderTransform o).

Definition GetColorAndOpacity (b : ptr) : M FLinearColor :=
  o <- deref b ;; ret (ColorAndOpacity o).

Definition SetRenderTransform (b : ptr) (t : FWidgetTransform) : M unit :=
  o <- deref b ;;
  store b (mkButton t (ColorAndOpacity o) (OnHovered o) (OnUnhovered o)).

Definition SetColorAndOpacity (b : ptr) (c : FLinearColor) : M unit :=
  o <- deref b ;;
  store b (mkButton (RenderTransform o) c (OnHovered o) (OnUnhovered o)).

(** [Button->OnHovered.AddDynamic(this, &f)]: appends to the invocation
    list. *)
Definition OnHovered_AddDynamic (b : ptr) (f : Handler) : M unit :=
  o <- deref b ;;
  store b (mkButton (RenderTransform o) (ColorAndOpacity o)
                    (OnHovered o ++ [f]) (OnUnhovered o)).

Definition OnUnhovered_AddDynamic (b : ptr) (f : Handler) : M unit :=
  o <- deref b ;;
  store b (mkButton (RenderTransform o) (ColorAndOpacity o)
                    (OnHovered o) (OnUnhovered o ++ [f])).

Definition set_OriginalTransforms (m : gmap ptr FWidgetTransform)
    (w : UMainMenuWidget) : UMainMenuWidget :=
  mkWidget (HoverScaleMultiplier w) (HoverAnimationDuration w)
           (HoverColorTint w) (bPlaySoundOnHover w) (HoverSound w)
           (PlayButton w) (SettingsButton w) (ContentButton w)
           (QuitButton w) m (OriginalColors w).

Definition set_OriginalColors (m : gmap ptr FLinearColor)
    (w : UMainMenuWidget) : UMainMenuWidget :=
  mkWidget (HoverScaleMultiplier w) (HoverAnimationDuration w)
           (HoverColorTint w) (bPlaySoundOnHover w) (HoverSound w)
           (PlayButton w) (SettingsButton w) (ContentButton w)
           (QuitButton w) (OriginalTransforms w) m.

(** [TMap::Add(Key, Value)] sets the value of the key, replacing the one
    already stored for it. *)
Definition OriginalTransforms_Add (b : ptr) (t : FWidgetTransform) : M unit :=
  fun g => Some (tt, mkGame
    (set_OriginalTransforms (<[b := t]> (OriginalTransforms (This g))) (This g))
    (Buttons g) (Played g)).

Definition OriginalColors_Add (b : ptr) (c : FLinearColor) : M unit :=
  fun g => Some (tt, mkGame
    (set_OriginalColors (<[b := c]> (OriginalColors (This g))) (This g))
    (Buttons g) (Played g)).

(** [UGameplayStatics::PlaySound2D(this, Sound)]: fire and forget. *)
Definition PlaySound2D (s : USoundBase) : M unit :=
  fun g => Some (tt, mkGame (This g) (Buttons g) (s :: Played g)).

(** *** MainMenuWidget.cpp *)

(** One [if (Button) { ... }] block of [BindButtonHoverEffects]; the
    source repeats it for each of the four buttons. *)
Definition BindButton (Button : option ptr) (hovered unhovered : Handler)
    : M unit :=
  match Button with
  | Some b =>
      t <- GetRenderTransform b ;;
      OriginalTransforms_Add b t ;;
      c <- GetColorAndOpacity b ;;
      OriginalColors_Add b c ;;
      OnHovered_AddDynamic b hovered ;;
      OnUnhovered_AddDynamic b unhovered
  | None => ret tt
  end.

Definition BindButtonHoverEffects : M unit :=
  w <- this ;;
  BindButton (PlayButton w) OnPlayButtonHovered_fn OnPlayButtonUnhovered_fn ;;
  BindButton (SettingsButton w)
             OnSettingsButtonHovered_fn OnSettingsButtonUnhovered_fn ;;
  BindButton (ContentButton w)
             OnContentButtonHovered_fn OnContentButtonUnhovered_fn ;;
  BindButton (QuitButton w) OnQuitButtonHovered_fn OnQuitButtonUnhovered_fn.

Definition NativeConstruct : M unit := BindButtonHoverEffects.

Definition ApplyHoverEffect (Button : option ptr) : M unit :=
  match Button with
  | None => ret tt
  | Some b =>
      w <- this ;;
      match OriginalTransforms w !! b with
      | None => ret tt
      | Some OriginalTransform =>
          let HoverTransform :=
            mkWidgetTransform
              (Translation OriginalTransform)
              (mkVector2D (HoverScaleMultiplier w) (HoverScaleMultiplier w))
              (Shear OriginalTransform)
              (Angle OriginalTransform) in
          SetRenderTransform b HoverTransform ;;
          match OriginalColors w !! b with
          | Some OriginalColor =>
              let NewColor := LinearColor_mul OriginalColor (HoverColorTint w) in
              SetColorAndOpacity b NewColor
          | None => ret tt
          end
      end
  end.

Definition RemoveHoverEffect (Button : option ptr) : M unit :=
  match Button with
  | None => ret tt
  | Some b =>
      w <- this ;;
      match OriginalTransforms w !! b with
      | Some OriginalTransform => SetRenderTransform b OriginalTransform
      | None => ret tt
      end ;;
      match OriginalColors w !! b with
      | Some OriginalColor => SetColorAndOpacity b OriginalColor
      | None => ret tt
      end
  end.

(** The sound step shared by the four hover handlers:
    [if (bPlaySoundOnHover && HoverSound) PlaySound2D(this, HoverSound);]. *)
Definition PlayHoverSound : M unit :=
  w <- this ;;
  match bPlaySoundOnHover w, HoverSound w with
  | true, Some s => PlaySound2D s
  | _, _ => ret tt
  end.

Definition OnPlayButtonHovered : M unit :=
  PlayHoverSound ;; w <- this ;; ApplyHoverEffect (PlayButton w).

Definition OnPlayButtonUnhovered : M unit :=
  w <- this ;; RemoveHoverEffect (PlayButton w).

Definition OnSettingsButtonHovered : M unit :=
  PlayHoverSound ;; w <- this ;; ApplyHoverEffect (SettingsButton w).

Definition OnSettingsButtonUnhovered : M unit :=
  w <- this ;; RemoveHoverEffect (SettingsButton w).

Definition OnContentButtonHovered : M unit :=
  PlayHoverSound ;; w <- this ;; ApplyHoverEffect (ContentButton w).

Definition OnContentButtonUnhovered : M unit :=
  w <- this ;; RemoveHoverEffect (ContentButton w).

Definition OnQuitButtonHovered : M unit :=
  PlayHoverSound ;; w <- this ;; ApplyHoverEffect (QuitButton w).

Definition OnQuitButtonUnhovered : M unit :=
  w <- this ;; RemoveHoverEffect (QuitButton w).

(** Dispatch of a bound handler. *)
Definition invoke (f : Handler) : M unit :=
  match f with
  | OnPlayButtonHovered_fn => OnPlayButtonHovered
  | OnPlayButtonUnhovered_fn => OnPlayButtonUnhovered
  | OnSettingsButtonHovered_fn => OnSettingsButtonHovered
  | OnSettingsButtonUnhovered_fn => OnSettingsButtonUnhovered
  | OnContentButtonHovered_fn => OnContentButtonHovered
  | OnContentButtonUnhovered_fn => OnContentButtonUnhovered
  | OnQuitButtonHovered_fn => OnQuitButtonHovered
  | OnQuitButtonUnhovered_fn => OnQuitButtonUnhovered
  end.

(** *** Events the widget receives *)

(** The four buttons of the menu, and for each the field holding it and
    the handlers bound to it. *)
Inductive MenuButton : Type := Play | Settings | Content | Quit.

Definition button_field (k : MenuButton) (w : UMainMenuWidget) : option ptr :=
  match k with
  | Play => PlayButton w
  | Settings => SettingsButton w
  | Content => ContentButton w
  | Quit => QuitButton w
  end.

Definition hovered_handler (k : MenuButton) : Handler :=
  match k with
  | Play => OnPlayButtonHovered_fn
  | Settings => OnSettingsButtonHovered_fn
  | Content => OnContentButtonHovered_fn
  | Quit => OnQuitButtonHovered_fn
  end.

Definition unhovered_handler (k : MenuButton) : Handler :=
  match k with
  | Play => OnPlayButtonUnhovered_fn
  | Settings => OnSettingsButtonUnhovered_fn
  | Content => OnContentButtonUnhovered_fn
  | Quit => OnQuitButtonUnhovered_fn
  end.

(** What can happen to a constructed widget: it is (re)bound, a delegate
    calls one of its handlers, or a caller (the two functions are
    [BlueprintCallable]) applies or removes the effect on some button. *)
Inductive Event : Type :=
| EvBind
| EvInvoke (f : Handler)
| EvApply (Button : option ptr)
| EvRemove (Button : option ptr).

Definition dispatch (e : Event) : M unit :=
  match e with
  | EvBind => BindButtonHoverEffects
  | EvInvoke f => invoke f
  | EvApply b => ApplyHoverEffect b
  | EvRemove b => RemoveHoverEffect b
  end.

(** A widget as its constructor leaves it: both maps empty. *)
Definition constructed (g : Game) : Prop :=
  OriginalTransforms (This g) = ∅ /\ OriginalColors (This g) = ∅.

Inductive reachable : Game -> Prop :=
| reachable_constructed g : constructed g -> reachable g
| reachable_step g e g' :
    reachable g -> dispatch e g = Some (tt, g') -> reachable g'.

(** The two snapshot maps have the same keys. *)
Definition keys_agree (g : Game) : Prop :=
  dom (OriginalTransforms (This g)) = dom (OriginalColors (This g)).

(** Every element with a snapshot is a live button. *)
Definition keys_live (g : Game) : Prop :=
  dom (OriginalTransforms (This g)) ⊆ dom (Buttons g).

(** Every element with a snapshot is one of the widget's four buttons. *)
Definition keys_bound (g : Game) : Prop :=
  forall b, b ∈ dom (OriginalTransforms (This g)) ->
            exists k, button_field k (This g) = Some b.

(** The style an element currently shows, and the snapshot stored for
    it. *)
Definition style (g : Game) (b : ptr) : option (FWidgetTransform * FLinearColor) :=
  match Buttons g !! b with
  | Some o => Some (RenderTransform o, ColorAndOpacity o)
  | None => None
  end.

Definition snapshot (g : Game) (b : ptr) : option (FWidgetTransform * FLinearColor) :=
  match OriginalTransforms (This g) !! b, OriginalColors (This g) !! b with
  | Some t, Some c => Some (t, c)
  | _, _ => None
  end.

(** The snapshot of a live element is the style it shows. *)
Definition captured (g : Game) (b : ptr) : Prop :=
  is_Some (style g b) /\ snapshot g b = style g b.

(** Every button of the widget has its current style as its snapshot. *)
Definition all_captured (g : Game) : Prop :=
  forall k b, button_field k (This g) = Some b -> captured g b.

(** The final state of a run, when it does not fail. *)
Definition exec (m : M unit) (g : Game) : option Game :=
  match m g with
  | Some (_, g') => Some g'
  | None => None
  end.

Definition style_after (m : M unit) (g : Game) (b : ptr)
    : option (FWidgetTransform * FLinearColor) :=
  match exec m g with
  | Some g' => style g' b
  | None => None
  end.

Definition snapshot_after (m : M unit) (g : Game) (b : ptr)
    : option (FWidgetTransform * FLinearColor) :=
  match exec m g with
  | Some g' => snapshot g' b
  | None => None
  end.

(** The transform [ApplyHoverEffect] builds from a stored one. *)
Definition hover_transform (w : UMainMenuWidget) (t : FWidgetTransform)
    : FWidgetTransform :=
  mkWidgetTransform (Translation t)
    (mkVector2D (HoverScaleMultiplier w) (HoverScaleMultiplier w))
    (Shear t) (Angle t).

(** Neither effect touches the widget's fields or the audio log, and the
    live buttons stay live. *)
Definition frame (g g' : Game) : Prop :=
  This g' = This g /\ Played g' = Played g /\
  dom (Buttons g') = dom (Buttons g).

(** The audio log after the sound step of a hover handler. *)
Definition sound_log (g : Game) : list USoundBase :=
  match bPlaySoundOnHover (This g), HoverSound (This g) with
  | true, Some s => s :: Played g
  | _, _ => Played g
  end.

(** Steps through a monadic body on a given state. *)
Ltac run :=
  unfold exec, SetRenderTransform, SetColorAndOpacity, GetRenderTransform,
    GetColorAndOpacity, OnHovered_AddDynamic, OnUnhovered_AddDynamic,
    OriginalTransforms_Add, OriginalColors_Add, PlaySound2D, store, deref,
    this, bind, ret in *;
  simpl in *.

(** *** A concrete menu *)

Definition identity_transform (sx sy : float) : FWidgetTransform :=
  mkWidgetTransform (mkVector2D (Float32.of_Z 0) (Float32.of_Z 0))
                    (mkVector2D sx sy)
                    (mkVector2D (Float32.of_Z 0) (Float32.of_Z 0))
                    (Float32.of_Z 0).

Definition grey : FLinearColor :=
  mkLinearColor (Float32.decimal 5 10) (Float32.decimal 5 10)
                (Float32.decimal 5 10) (Float32.of_Z 1).

Definition white : FLinearColor :=
  mkLinearColor (Float32.of_Z 1) (Float32.of_Z 1)
                (Float32.of_Z 1) (Float32.of_Z 1).

(** The widget with the defaults of MainMenuWidget.h, its four buttons at
    addresses 1 to 4, and the given sound asset. *)
Definition default_widget (snd : option USoundBase) : UMainMenuWidget :=
  mkWidget (Float32.decimal 105 100) (Float32.decimal 15 100)
           (mkLinearColor (Float32.decimal 12 10) (Float32.decimal 12 10)
                          (Float32.decimal 12 10) (Float32.of_Z 1))
           true snd
           (Some 1%positive) (Some 2%positive) (Some 3%positive)
           (Some 4%positive) ∅ ∅.

Definition plain_button (sx sy : float) (c : FLinearColor) : UButton :=
  mkButton (identity_transform sx sy) c [] [].

(** A menu of four grey buttons; the Play button has the scale given. *)
Definition menu (sx sy : float) : Game :=
  mkGame (default_widget (Some 7%positive))
         (<[1%positive := plain_button sx sy grey]>
          (<[2%positive := plain_button (Float32.of_Z 1) (Float32.of_Z 1) grey]>
           (<[3%positive := plain_button (Float32.of_Z 1) (Float32.of_Z 1) grey]>
            (<[4%positive := plain_button (Float32.of_Z 1) (Float32.of_Z 1) white]> ∅))))
         [].

Definition one : float := Float32.of_Z 1.
Definition two : float := Float32.of_Z 2.

(** The menu above once its buttons are bound. *)
Definition bound_menu : Game :=
  match exec BindButtonHoverEffects (menu one one) with
  | Some g => g
  | None => menu one one
  end.

(** *** Runs of events *)

(** The events of a list, dispatched in order. *)
Fixpoint play (es : list Event) : M unit :=
  match es with
  | [] => ret tt
  | e :: es' => dispatch e ;; play es'
  end.

Definition is_bind (e : Event) : bool :=
  match e with
  | EvBind => true
  | _ => false
  end.

Definition hover_only (es : list Event) : bool :=
  forallb (fun e => negb (is_bind e)) es.

(** The style [ApplyHoverEffect] derives from a snapshot. *)
Definition hover_style (w : UMainMenuWidget)
    (p : FWidgetTransform * FLinearColor) : FWidgetTransform * FLinearColor :=
  (hover_transform w (fst p), LinearColor_mul (snd p) (HoverColorTint w)).

(** The buttons a widget points to. *)
Definition field_set (B : option ptr) : gset ptr :=
  match B with
  | Some b => {[b]}
  | None => ∅
  end.

Definition bound_buttons (w : UMainMenuWidget) : gset ptr :=
  field_set (PlayButton w) ∪ field_set (SettingsButton w) ∪
  field_set (ContentButton w) ∪ field_set (QuitButton w).

(** The button an event acts on, if any. *)
Definition target (e : Event) (w : UMainMenuWidget) : option ptr :=
  match e with
  | EvBind => None
  | EvInvoke OnPlayButtonHovered_fn | EvInvoke OnPlayButtonUnhovered_fn =>
      PlayButton w
  | EvInvoke OnSettingsButtonHovered_fn | EvInvoke OnSettingsButtonUnhovered_fn =>
      SettingsButton w
  | EvInvoke OnContentButtonHovered_fn | EvInvoke OnContentButtonUnhovered_fn =>
      ContentButton w
  | EvInvoke OnQuitButtonHovered_fn | EvInvoke OnQuitButtonUnhovered_fn =>
      QuitButton w
  | EvApply B | EvRemove B => B
  end.

(** The hover settings of a widget. *)
Definition settings (w : UMainMenuWidget)
    : float * float * FLinearColor * bool * option USoundBase :=
  (HoverScaleMultiplier w, HoverAnimationDuration w, HoverColorTint w,
   bPlaySoundOnHover w, HoverSound w).

(** The handlers bound to a button's two delegates. *)
Definition delegates (g : Game) (b : ptr) : option (list Handler * list Handler) :=
  match Buttons g !! b with
  | Some o => Some (OnHovered o, OnUnhovered o)
  | None => None
  end.

End MainMenu.

(** ** The game instance *)

Module GameInstance.

(** A widget class, the target of a [TSubclassOf<UUserWidget>]. *)
Definition UClass : Type := positive.

(** A widget object: its identity and the class it was created from. *)
Record UUserWidget : Type := mkUserWidget {
  WidgetId : positive;
  WidgetClass : UClass
}.

Inductive FInputMode : Type :=
| InputModeDefault
| InputModeUIOnly (WidgetToFocus : UUserWidget).

Record APlayerController : Type := mkPlayerController {
  InputMode : FInputMode;
  bShowMouseCursor : bool
}.

(** The member function a timer is bound to. *)
Inductive TimerDelegate : Type := ShowMainMenu_fn.

Record FTimerData : Type := mkTimerData {
  Handle : positive;
  Delegate : TimerDelegate;
  Rate : float;
  bLoop : bool;
  ExpireTime : float
}.

(** The services of the hosting engine the game instance calls into:
    the viewport (widgets with their z-order, in the order they were
    added), widget creation, the first player controller, and the timer
    manager with its clock. *)
Record Engine : Type := mkEngine {
  Viewport : list (UUserWidget * Z);
  NextObject : positive;
  CanCreateWidget : UClass -> bool;
  PlayerController : option APlayerController;
  Timers : list FTimerData;
  NextHandle : positive;
  InternalTime : float
}.

(** The fields of [UApexSimGameInstance] (ApexSimGameInstance.h). *)
Record UApexSimGameInstance : Type := mkGameInstance {
  LoadingScreenWidgetClass : option UClass;
  MainMenuWidgetClass : option UClass;
  LoadingScreenDuration : float;
  CurrentWidget : option UUserWidget;
  LoadingTimerHandle : option positive
}.

Record System : Type := mkSystem {
  This : UApexSimGameInstance;
  Host : Engine
}.

Definition M : Type -> Type := St System.

Definition this : M UApexSimGameInstance := fun s => Some (This s, s).
Definition engine : M Engine := fun s => Some (Host s, s).
Definition set_engine (e : Engine) : M unit :=
  fun s => Some (tt, mkSystem (This s) e).

(** [CurrentWidget = w]. *)
Definition set_CurrentWidget (w : option UUserWidget) : M unit :=
  fun s => Some (tt, mkSystem
    (mkGameInstance (LoadingScreenWidgetClass (This s))
                    (MainMenuWidgetClass (This s))
                    (LoadingScreenDuration (This s))
                    w (LoadingTimerHandle (This s)))
    (Host s)).

Definition set_LoadingTimerHandle (h : option positive) : M unit :=
  fun s => Some (tt, mkSystem
    (mkGameInstance (LoadingScreenWidgetClass (This s))
                    (MainMenuWidgetClass (This s))
                    (LoadingScreenDuration (This s))
                    (CurrentWidget (This s)) h)
    (Host s)).

(** [p->]: the object a pointer designates; null has none. *)
Definition arrow (p : option UUserWidget) : M UUserWidget :=
  match p with
  | Some w => ret w
  | None => crash
  end.

(** *** Engine calls *)

(** [CreateWidget<UUserWidget>(this, Class)]: a new object of the class,
    or null when the engine cannot create it. *)
Definition CreateWidget (cls : UClass) : M (option UUserWidget) :=
  e <- engine ;;
  if CanCreateWidget e cls then
    set_engine (mkEngine (Viewport e) (Pos.succ (NextObject e))
                         (CanCreateWidget e) (PlayerController e)
                         (Timers e) (NextHandle e) (InternalTime e)) ;;
    ret (Some (mkUserWidget (NextObject e) cls))
  else ret None.

Definition same_widget (a b : UUserWidget) : bool :=
  Pos.eqb (WidgetId a) (WidgetId b).

Definition set_Viewport (v : list (UUserWidget * Z)) : M unit :=
  e <- engine ;;
  set_engine (mkEngine v (NextObject e) (CanCreateWidget e)
                       (PlayerController e) (Timers e) (NextHandle e)
                       (InternalTime e)).

Definition AddToViewport (w : UUserWidget) (ZOrder : Z) : M unit :=
  e <- engine ;; set_Viewport (Viewport e ++ [(w, ZOrder)]).

Definition RemoveFromParent (w : UUserWidget) : M unit :=
  e <- engine ;;
  set_Viewport
    (List.filter (fun x => negb (same_widget (fst x) w)) (Viewport e)).

(** [TakeWidget()] gives the widget's underlying surface, identified with
    the widget. *)
Definition TakeWidget (w : UUserWidget) : M UUserWidget := ret w.

(** [UGameplayStatics::GetPlayerController(GetWorld(), 0)]; null when
    there is none. *)
Definition GetPlayerController : M (option APlayerController) :=
  e <- engine ;; ret (PlayerController e).

Definition set_PlayerController (pc : APlayerController) : M unit :=
  e <- engine ;;
  set_engine (mkEngine (Viewport e) (NextObject e) (CanCreateWidget e)
                       (Some pc) (Timers e) (NextHandle e)
                       (InternalTime e)).

(** [PC->SetInputMode(Mode)] and [PC->bShowMouseCursor = b] on the
    controller found. *)
Definition SetInputMode (mode : FInputMode) : M unit :=
  e <- engine ;;
  match PlayerController e with
  | Some pc => set_PlayerController (mkPlayerController mode (bShowMouseCursor pc))
  | None => crash
  end.

Definition set_bShowMouseCursor (b : bool) : M unit :=
  e <- engine ;;
  match PlayerController e with
  | Some pc => set_PlayerController (mkPlayerController (InputMode pc) b)
  | None => crash
  end.

Definition set_Timers (ts : list FTimerData) : M unit :=
  e <- engine ;;
  set_engine (mkEngine (Viewport e) (NextObject e) (CanCreateWidget e)
                       (PlayerController e) ts (NextHandle e)
                       (InternalTime e)).

(** Modelled from the spec: the timer manager is the engine's and is not
    part of the sources; the spec gives the delay scheduler as
    [after(duration, callback)].  [SetTimer(Handle, this, &f, InRate,
    InbLoop)] enters a timer that expires [InRate] after the current time
    and stores its handle. *)
Definition SetTimer (f : TimerDelegate) (InRate : float) (InbLoop : bool)
    : M unit :=
  e <- engine ;;
  let h := NextHandle e in
  set_engine (mkEngine (Viewport e) (NextObject e) (CanCreateWidget e)
                       (PlayerController e)
                       (Timers e ++
                        [mkTimerData h f InRate InbLoop
                           (Float32.add (InternalTime e) InRate)])
                       (Pos.succ h) (InternalTime e)) ;;
  set_LoadingTimerHandle (Some h).

(** *** ApexSimGameInstance.cpp *)

(** The engine's own [Super::Init()] is left out. *)
Definition Init : M unit :=
  gi <- this ;;
  match LoadingScreenWidgetClass gi with
  | Some cls =>
      w <- CreateWidget cls ;;
      set_CurrentWidget w ;;
      gi <- this ;;
      match CurrentWidget gi with
      | Some _ =>
          cw <- arrow (CurrentWidget gi) ;;
          AddToViewport cw 0 ;;
          pc <- GetPlayerController ;;
          match pc with
          | Some _ =>
              cw <- arrow (CurrentWidget gi) ;;
              focus <- TakeWidget cw ;;
              SetInputMode (InputModeUIOnly focus) ;;
              set_bShowMouseCursor false
          | None => ret tt
          end ;;
          SetTimer ShowMainMenu_fn (LoadingScreenDuration gi) false
      | None => ret tt
      end
  | None => ret tt
  end.

Definition ShowMainMenu : M unit :=
  gi <- this ;;
  match CurrentWidget gi with
  | Some _ =>
      cw <- arrow (CurrentWidget gi) ;;
      RemoveFromParent cw ;;
      set_CurrentWidget None
  | None => ret tt
  end ;;
  gi <- this ;;
  match MainMenuWidgetClass gi with
  | Some cls =>
      w <- CreateWidget cls ;;
      set_CurrentWidget w ;;
      gi <- this ;;
      match CurrentWidget gi with
      | Some _ =>
          cw <- arrow (CurrentWidget gi) ;;
          AddToViewport cw 0 ;;
          pc <- GetPlayerController ;;
          match pc with
          | Some _ =>
              cw <- arrow (CurrentWidget gi) ;;
              focus <- TakeWidget cw ;;
              SetInputMode (InputModeUIOnly focus) ;;
              set_bShowMouseCursor true
          | None => ret tt
          end
      | None => ret tt
      end
  | None => ret tt
  end.

Definition invoke (f : TimerDelegate) : M unit :=
  match f with
  | ShowMainMenu_fn => ShowMainMenu
  end.

(** *** The timer manager's clock *)

Definition expired (now : float) (t : FTimerData) : bool :=
  Float32.leb (ExpireTime t) now.

(** A looping timer is entered again one period later; a single-shot
    timer is dropped. *)
Definition requeue (t : FTimerData) : list FTimerData :=
  if bLoop t then
    [mkTimerData (Handle t) (Delegate t) (Rate t) (bLoop t)
                 (Float32.add (ExpireTime t) (Rate t))]
  else [].

Fixpoint fire (ts : list FTimerData) : M (list TimerDelegate) :=
  match ts with
  | [] => ret []
  | t :: ts' =>
      invoke (Delegate t) ;;
      fs <- fire ts' ;;
      ret (Delegate t :: fs)
  end.

Definition set_InternalTime (now : float) : M unit :=
  e <- engine ;;
  set_engine (mkEngine (Viewport e) (NextObject e) (CanCreateWidget e)
                       (PlayerController e) (Timers e) (NextHandle e) now).

(** Modelled from the spec: one step of the engine's timer manager, which
    is not part of the sources.  The clock moves to [now]; the timers that
    have expired by then leave the queue (looping ones are entered again)
    and their delegates are called in order.  The result lists the
    delegates called. *)
Definition Tick (now : float) : M (list TimerDelegate) :=
  e <- engine ;;
  let due := List.filter (expired now) (Timers e) in
  let pending := List.filter (fun t => negb (expired now t)) (Timers e) in
  set_Timers (pending ++ flat_map requeue due) ;;
  set_InternalTime now ;;
  fire due.

(** The engine ticking at the given successive clock values. *)
Fixpoint Run (clock : list float) : M (list TimerDelegate) :=
  match clock with
  | [] => ret []
  | now :: rest =>
      fs <- Tick now ;;
      gs <- Run rest ;;
      ret (fs ++ gs)
  end.

(** *** Observations on a system *)

(** The engine as [Init] finds it: nothing displayed, no timer pending,
    no current widget. *)
Definition at_startup (s : System) : Prop :=
  Viewport (Host s) = [] /\ Timers (Host s) = [] /\
  CurrentWidget (This s) = None.

(** The viewport shows the current widget and nothing else. *)
Definition shows_current (s : System) : Prop :=
  Viewport (Host s) =
    match CurrentWidget (This s) with
    | Some w => [(w, 0)]
    | None => []
    end.

(** What is displayed, and what is current, up to the identity of the
    widget objects. *)
Definition displayed_classes (s : System) : list UClass :=
  map (fun x => WidgetClass (fst x)) (Viewport (Host s)).

Definition current_class (s : System) : option UClass :=
  match CurrentWidget (This s) with
  | Some w => Some (WidgetClass w)
  | None => None
  end.

Definition cursor_shown (s : System) : option bool :=
  match PlayerController (Host s) with
  | Some pc => Some (bShowMouseCursor pc)
  | None => None
  end.

(** The time at which a timer set by [Init] in [s] expires, and whether a
    run of the clock reaches it. *)
Definition deadline (s : System) : float :=
  Float32.add (InternalTime (Host s)) (LoadingScreenDuration (This s)).

Definition reached (d : float) (clock : list float) : bool :=
  existsb (Float32.leb d) clock.

(** [Init] enters exactly one timer, single-shot, for [ShowMainMenu] after
    [LoadingScreenDuration]; over any run of the clock the delegate is
    called once if the deadline is reached and not at all before. *)
Definition transition_fires_once (s : System) : Prop :=
  exists s1 h,
    Init s = Some (tt, s1) /\
    Timers (Host s1) =
      [mkTimerData h ShowMainMenu_fn (LoadingScreenDuration (This s)) false
                   (deadline s)] /\
    forall clock, exists s2,
      Run clock s1 =
        Some (if reached (deadline s) clock then [ShowMainMenu_fn] else [], s2).

(** The class of the main menu widget a call will create, if any. *)
Definition menu_class (s : System) : option UClass :=
  match MainMenuWidgetClass (This s) with
  | Some cls => if CanCreateWidget (Host s) cls then Some cls else None
  | None => None
  end.

(** Unfolds the engine calls in a method body. *)
Ltac unfold_calls :=
  unfold Init, ShowMainMenu, CreateWidget, AddToViewport, RemoveFromParent,
    TakeWidget, GetPlayerController, SetInputMode, set_bShowMouseCursor,
    set_PlayerController, SetTimer, set_Timers, set_InternalTime,
    set_Viewport, set_CurrentWidget, set_LoadingTimerHandle, set_engine,
    arrow, engine, this, crash, bind, ret in *;
  simpl in *.

(** *** Concrete systems *)

Definition fresh_engine : Engine :=
  mkEngine [] 1%positive (fun _ => true)
           (Some (mkPlayerController InputModeDefault false))
           [] 1%positive (Float32.of_Z 0).

(** Loading screen of class 1, main menu of class 2, the default
    duration of 2 seconds. *)
Definition configured : System :=
  mkSystem (mkGameInstance (Some 1%positive) (Some 2%positive)
                           (Float32.of_Z 2) None None)
           fresh_engine.

(** The same without a loading screen class. *)
Definition without_loading_screen : System :=
  mkSystem (mkGameInstance None (Some 2%positive) (Float32.of_Z 2) None None)
           fresh_engine.

Definition exec (m : M unit) (s : System) : System :=
  match m s with
  | Some (_, s') => s'
  | None => s
  end.

Definition fired (m : M (list TimerDelegate)) (s : System)
    : option (list TimerDelegate) :=
  match m s with
  | Some (fs, _) => Some fs
  | None => None
  end.

(** *** Runs of the flow *)

(** The viewport without the current widget. *)
Definition without_current (s : System) : list (UUserWidget * Z) :=
  match CurrentWidget (This s) with
  | Some w =>
      List.filter (fun x => negb (same_widget (fst x) w)) (Viewport (Host s))
  | None => Viewport (Host s)
  end.

(** The player controller once input is UI-only with focus on [w]; no
    controller stays no controller. *)
Definition ui_only (pc : option APlayerController) (w : UUserWidget)
    (cursor : bool) : option APlayerController :=
  match pc with
  | Some _ => Some (mkPlayerController (InputModeUIOnly w) cursor)
  | None => None
  end.

(** The system with its timer queue and clock replaced. *)
Definition retimed (ts : list FTimerData) (now : float) (s : System) : System :=
  mkSystem (This s)
    (mkEngine (Viewport (Host s)) (NextObject (Host s))
              (CanCreateWidget (Host s)) (PlayerController (Host s))
              ts (NextHandle (Host s)) now).

(** What can happen after [Init]: [ShowMainMenu] is called (it is
    [BlueprintCallable]), or the engine ticks. *)
Inductive Step : Type :=
| StepShowMainMenu
| StepTick (now : float).

Definition step (e : Step) : M unit :=
  match e with
  | StepShowMainMenu => ShowMainMenu
  | StepTick now => Tick now ;; ret tt
  end.

Fixpoint steps (es : list Step) : M unit :=
  match es with
  | [] => ret tt
  | e :: es' => step e ;; steps es'
  end.

End GameInstance.

(** * Literals

    Bit patterns of the literals of the sources: 1.0f = 0x3F800000,
    1.05f = 0x3F866666, 1.2f = 0x3F99999A, 0.6f = 0x3F19999A,
    0.5f = 0x3F000000. *)

Example literal_one : Float32.of_Z 1 = S754_finite false 8388608 (-23).
Proof. reflexivity. Qed.

Example literal_1_05 : Float32.decimal 105 100 = S754_finite false 8808038 (-23).
Proof. reflexivity. Qed.

Example literal_1_2 : Float32.decimal 12 10 = S754_finite false 10066330 (-23).
Proof. reflexivity. Qed.

Example literal_0_6 : Float32.decimal 6 10 = S754_finite false 10066330 (-24).
Proof. reflexivity. Qed.

Example literal_0_5 : Float32.decimal 5 10 = S754_finite false 8388608 (-24).
Proof. reflexivity. Qed.

(** * Properties of the main menu widget *)

Module MainMenuFacts.
Import MainMenu.

(** *** The setters *)

Lemma SetRenderTransform_live g b t o :
  Buttons g !! b = Some o ->
  SetRenderTransform b t g =
    Some (tt, mkGame (This g)
                (<[b := mkButton t (ColorAndOpacity o) (OnHovered o) (OnUnhovered o)]>
                   (Buttons g))
                (Played g)).
Proof. intros E. run. by rewrite E. Qed.

Lemma SetColorAndOpacity_live g b c o :
  Buttons g !! b = Some o ->
  SetColorAndOpacity b c g =
    Some (tt, mkGame (This g)
                (<[b := mkButton (RenderTransform o) c (OnHovered o) (OnUnhovered o)]>
                   (Buttons g))
                (Played g)).
Proof. intros E. run. by rewrite E. Qed.

(** *** What the two effects do to a known, live element *)

Lemma ApplyHoverEffect_known g b t c o :
  OriginalTransforms (This g) !! b = Some t ->
  OriginalColors (This g) !! b = Some c ->
  Buttons g !! b = Some o ->
  ApplyHoverEffect (Some b) g =
    Some (tt, mkGame (This g)
                (<[b := mkButton (hover_transform (This g) t)
                                 (LinearColor_mul c (HoverColorTint (This g)))
                                 (OnHovered o) (OnUnhovered o)]> (Buttons g))
                (Played g)).
Proof.
  intros Et Ec Eo. unfold ApplyHoverEffect. run.
  rewrite Et, Eo. simpl. rewrite Ec. simpl.
  rewrite lookup_insert_eq. simpl. by rewrite insert_insert_eq.
Qed.

Lemma ApplyHoverEffect_no_color g b t o :
  OriginalTransforms (This g) !! b = Some t ->
  OriginalColors (This g) !! b = None ->
  Buttons g !! b = Some o ->
  ApplyHoverEffect (Some b) g =
    Some (tt, mkGame (This g)
                (<[b := mkButton (hover_transform (This g) t)
                                 (ColorAndOpacity o)
                                 (OnHovered o) (OnUnhovered o)]> (Buttons g))
                (Played g)).
Proof.
  intros Et Ec Eo. unfold ApplyHoverEffect. run.
  rewrite Et, Eo. simpl. by rewrite Ec.
Qed.

Lemma RemoveHoverEffect_known g b t c o :
  OriginalTransforms (This g) !! b = Some t ->
  OriginalColors (This g) !! b = Some c ->
  Buttons g !! b = Some o ->
  RemoveHoverEffect (Some b) g =
    Some (tt, mkGame (This g)
                (<[b := mkButton t c (OnHovered o) (OnUnhovered o)]> (Buttons g))
                (Played g)).
Proof.
  intros Et Ec Eo. unfold RemoveHoverEffect. run.
  rewrite Et, Eo. simpl. rewrite Ec. simpl.
  rewrite lookup_insert_eq. simpl. by rewrite insert_insert_eq.
Qed.

Lemma game_eta g : mkGame (This g) (Buttons g) (Played g) = g.
Proof. by destruct g. Qed.

(** *** Effects of one event on the widget's own fields *)

Lemma frame_refl g : frame g g.
Proof. by repeat split. Qed.

Lemma frame_trans g1 g2 g3 : frame g1 g2 -> frame g2 g3 -> frame g1 g3.
Proof. unfold frame. intros (?&?&?) (?&?&?). repeat split; congruence. Qed.

Lemma dom_insert_live (m : gmap ptr UButton) b o o' :
  m !! b = Some o -> dom (<[b := o']> m) = dom m.
Proof.
  intros E. rewrite dom_insert_L.
  apply subseteq_union_1_L, singleton_subseteq_l, elem_of_dom. eauto.
Qed.

Lemma SetRenderTransform_frame g b t g' :
  SetRenderTransform b t g = Some (tt, g') -> frame g g'.
Proof.
  destruct (Buttons g !! b) as [o|] eqn:E.
  - rewrite (SetRenderTransform_live _ _ _ _ E). intros [= <-].
    repeat split. simpl. by eapply dom_insert_live.
  - run. by rewrite E.
Qed.

Lemma SetColorAndOpacity_frame g b c g' :
  SetColorAndOpacity b c g = Some (tt, g') -> frame g g'.
Proof.
  destruct (Buttons g !! b) as [o|] eqn:E.
  - rewrite (SetColorAndOpacity_live _ _ _ _ E). intros [= <-].
    repeat split. simpl. by eapply dom_insert_live.
  - run. by rewrite E.
Qed.

Lemma ApplyHoverEffect_frame B g g' :
  ApplyHoverEffect B g = Some (tt, g') -> frame g g'.
Proof.
  destruct B as [b|]; [|intros [= <-]; apply frame_refl].
  unfold ApplyHoverEffect, bind at 1, this. simpl.
  destruct (OriginalTransforms (This g) !! b) as [t|];
    [|intros [= <-]; apply frame_refl].
  unfold bind at 1.
  destruct (SetRenderTransform b _ g) as [[[] g1]|] eqn:E1; [|done].
  pose proof (SetRenderTransform_frame _ _ _ _ E1) as F1.
  destruct (OriginalColors (This g) !! b) as [c|].
  - intros E2. apply SetColorAndOpacity_frame in E2.
    eapply frame_trans; eauto.
  - by intros [= <-].
Qed.

Lemma RemoveHoverEffect_frame B g g' :
  RemoveHoverEffect B g = Some (tt, g') -> frame g g'.
Proof.
  destruct B as [b|]; [|intros [= <-]; apply frame_refl].
  unfold RemoveHoverEffect, bind at 1, this. simpl.
  unfold bind at 1.
  destruct (OriginalTransforms (This g) !! b) as [t|].
  - destruct (SetRenderTransform b t g) as [[[] g1]|] eqn:E1; [|done].
    pose proof (SetRenderTransform_frame _ _ _ _ E1) as F1.
    destruct (OriginalColors (This g) !! b) as [c|].
    + intros E2. apply SetColorAndOpacity_frame in E2.
      eapply frame_trans; eauto.
    + by intros [= <-].
  - simpl. destruct (OriginalColors (This g) !! b) as [c|].
    + apply SetColorAndOpacity_frame.
    + intros [= <-]. apply frame_refl.
Qed.

(** *** The sound step and the handlers *)

Lemma PlayHoverSound_run g :
  PlayHoverSound g = Some (tt, mkGame (This g) (Buttons g) (sound_log g)).
Proof.
  unfold PlayHoverSound, sound_log. run.
  destruct (bPlaySoundOnHover (This g)), (HoverSound (This g));
    simpl; by rewrite ?game_eta.
Qed.

(** The effects read the log nowhere: they commute with a change of it. *)
Lemma ApplyHoverEffect_log B g l :
  ApplyHoverEffect B (mkGame (This g) (Buttons g) l) =
  match ApplyHoverEffect B g with
  | Some (u, g') => Some (u, mkGame (This g') (Buttons g') l)
  | None => None
  end.
Proof.
  destruct B as [b|]; [|done].
  unfold ApplyHoverEffect. run.
  destruct (OriginalTransforms (This g) !! b) as [t|]; simpl; [|done].
  destruct (Buttons g !! b) as [o|]; simpl; [|done].
  destruct (OriginalColors (This g) !! b) as [c|]; simpl; [|done].
  rewrite !lookup_insert_eq. done.
Qed.

Lemma hovered_handler_run k g :
  invoke (hovered_handler k) g =
  ApplyHoverEffect (button_field k (This g))
                   (mkGame (This g) (Buttons g) (sound_log g)).
Proof.
  destruct k; simpl;
    unfold OnPlayButtonHovered, OnSettingsButtonHovered,
      OnContentButtonHovered, OnQuitButtonHovered;
    unfold bind at 1; rewrite PlayHoverSound_run; reflexivity.
Qed.

Lemma unhovered_handler_run k g :
  invoke (unhovered_handler k) g =
  RemoveHoverEffect (button_field k (This g)) g.
Proof. by destruct k. Qed.

Lemma handler_cases (f : Handler) :
  (exists k, f = hovered_handler k) \/ (exists k, f = unhovered_handler k).
Proof.
  destruct f;
    first [ left; by (exists Play + exists Settings + exists Content + exists Quit)
          | right; by (exists Play + exists Settings + exists Content + exists Quit) ].
Qed.

(** A handler changes neither the widget's fields nor the set of live
    buttons. *)
Lemma invoke_keeps f g g' :
  invoke f g = Some (tt, g') ->
  This g' = This g /\ dom (Buttons g') = dom (Buttons g).
Proof.
  destruct (handler_cases f) as [[k ->]|[k ->]].
  - rewrite hovered_handler_run. intros E.
    apply ApplyHoverEffect_frame in E as (?&?&?). done.
  - rewrite unhovered_handler_run. intros E.
    apply RemoveHoverEffect_frame in E as (?&?&?). done.
Qed.

(** *** Binding *)

Lemma BindButton_live g b f u o :
  Buttons g !! b = Some o ->
  BindButton (Some b) f u g =
    Some (tt, mkGame
      (set_OriginalColors (<[b := ColorAndOpacity o]> (OriginalColors (This g)))
         (set_OriginalTransforms
            (<[b := RenderTransform o]> (OriginalTransforms (This g))) (This g)))
      (<[b := mkButton (RenderTransform o) (ColorAndOpacity o)
                       (OnHovered o ++ [f]) (OnUnhovered o ++ [u])]> (Buttons g))
      (Played g)).
Proof.
  intros E. unfold BindButton. run.
  repeat (first [rewrite E | rewrite lookup_insert_eq]; simpl).
  by rewrite insert_insert_eq.
Qed.

Lemma BindButton_dangling g b f u :
  Buttons g !! b = None -> BindButton (Some b) f u g = None.
Proof. intros E. unfold BindButton. run. by rewrite E. Qed.

(** The outcome of one block, whichever pointer it is given. *)
Lemma BindButton_inv B f u g g' :
  BindButton B f u g = Some (tt, g') ->
  (B = None /\ g' = g) \/
  (exists b o, B = Some b /\ Buttons g !! b = Some o /\
     OriginalTransforms (This g') = <[b := RenderTransform o]> (OriginalTransforms (This g)) /\
     OriginalColors (This g') = <[b := ColorAndOpacity o]> (OriginalColors (This g)) /\
     Buttons g' = <[b := mkButton (RenderTransform o) (ColorAndOpacity o)
                            (OnHovered o ++ [f]) (OnUnhovered o ++ [u])]> (Buttons g) /\
     (forall k, button_field k (This g') = button_field k (This g))).
Proof.
  destruct B as [b|]; [|intros [= <-]; by left].
  destruct (Buttons g !! b) as [o|] eqn:E.
  - rewrite (BindButton_live _ _ _ _ _ E). intros [= <-]. right.
    exists b, o. repeat split; solve [done | by intros []].
  - by rewrite BindButton_dangling.
Qed.

Lemma BindButton_keys_agree B f u g g' :
  BindButton B f u g = Some (tt, g') -> keys_agree g -> keys_agree g'.
Proof.
  intros E K. apply BindButton_inv in E as [[_ ->]|(b&o&_&_&Et&Ec&_)]; [done|].
  unfold keys_agree in *. rewrite Et, Ec, !dom_insert_L. by rewrite K.
Qed.

Lemma BindButton_keys_live B f u g g' :
  BindButton B f u g = Some (tt, g') -> keys_live g -> keys_live g'.
Proof.
  intros E K. apply BindButton_inv in E as [[_ ->]|(b&o&_&_&Et&_&Eb&_)]; [done|].
  unfold keys_live in *. rewrite Et, Eb, !dom_insert_L. by apply union_mono_l.
Qed.

Lemma BindButton_style B f u g g' x :
  BindButton B f u g = Some (tt, g') -> style g' x = style g x.
Proof.
  intros E. apply BindButton_inv in E as [[_ ->]|(b&o&_&Eo&_&_&Eb&_)]; [done|].
  unfold style. rewrite Eb. destruct (decide (b = x)) as [->|N].
  - by rewrite lookup_insert_eq, Eo.
  - by rewrite lookup_insert_ne.
Qed.

(** An element whose snapshot is its current style keeps that through a
    block, and the element the block binds gets it. *)
Lemma BindButton_snapshot B f u g g' x :
  BindButton B f u g = Some (tt, g') ->
  B = Some x \/ captured g x ->
  captured g' x.
Proof.
  intros E H. unfold captured. rewrite (BindButton_style _ _ _ _ _ x E).
  apply BindButton_inv in E as [[-> ->]|(b&o&->&Eo&Et&Ec&_&_)].
  - by destruct H.
  - unfold captured, snapshot, style in *. rewrite Et, Ec.
    destruct (decide (b = x)) as [->|N].
    + by rewrite !lookup_insert_eq, Eo.
    + rewrite !lookup_insert_ne by done. destruct H; [congruence|done].
Qed.

Lemma BindButton_fields B f u g g' k :
  BindButton B f u g = Some (tt, g') ->
  button_field k (This g') = button_field k (This g).
Proof.
  intros E. apply BindButton_inv in E as [[_ ->]|(b&o&_&_&_&_&_&F)]; auto.
Qed.

(** [BindButtonHoverEffects] is its four blocks in sequence. *)
Lemma BindButtonHoverEffects_inv g g' :
  BindButtonHoverEffects g = Some (tt, g') ->
  exists g1 g2 g3,
    BindButton (PlayButton (This g))
               OnPlayButtonHovered_fn OnPlayButtonUnhovered_fn g = Some (tt, g1) /\
    BindButton (SettingsButton (This g))
               OnSettingsButtonHovered_fn OnSettingsButtonUnhovered_fn g1 = Some (tt, g2) /\
    BindButton (ContentButton (This g))
               OnContentButtonHovered_fn OnContentButtonUnhovered_fn g2 = Some (tt, g3) /\
    BindButton (QuitButton (This g))
               OnQuitButtonHovered_fn OnQuitButtonUnhovered_fn g3 = Some (tt, g').
Proof.
  unfold BindButtonHoverEffects, bind, this. simpl.
  destruct (BindButton (PlayButton _) _ _ g) as [[[] g1]|] eqn:E1; [|done].
  destruct (BindButton (SettingsButton _) _ _ g1) as [[[] g2]|] eqn:E2; [|done].
  destruct (BindButton (ContentButton _) _ _ g2) as [[[] g3]|] eqn:E3; [|done].
  intros E4. exists g1, g2, g3. done.
Qed.

Lemma BindButtonHoverEffects_keys g g' :
  BindButtonHoverEffects g = Some (tt, g') ->
  (keys_agree g -> keys_agree g') /\ (keys_live g -> keys_live g').
Proof.
  intros E. apply BindButtonHoverEffects_inv in E as (g1&g2&g3&E1&E2&E3&E4).
  split; intros K.
  - eauto using BindButton_keys_agree.
  - eauto using BindButton_keys_live.
Qed.

Lemma BindButtonHoverEffects_style g g' x :
  BindButtonHoverEffects g = Some (tt, g') -> style g' x = style g x.
Proof.
  intros E. apply BindButtonHoverEffects_inv in E as (g1&g2&g3&E1&E2&E3&E4).
  rewrite (BindButton_style _ _ _ _ _ x E4), (BindButton_style _ _ _ _ _ x E3),
    (BindButton_style _ _ _ _ _ x E2). by apply (BindButton_style _ _ _ _ _ x E1).
Qed.

(** After binding, every button of the widget has its current style as
    its snapshot. *)
Lemma BindButtonHoverEffects_snapshot g g' k b :
  BindButtonHoverEffects g = Some (tt, g') ->
  button_field k (This g) = Some b ->
  captured g' b.
Proof.
  intros E F. apply BindButtonHoverEffects_inv in E as (g1&g2&g3&E1&E2&E3&E4).
  destruct k; simpl in F.
  - eapply BindButton_snapshot; [exact E4|right].
    eapply BindButton_snapshot; [exact E3|right].
    eapply BindButton_snapshot; [exact E2|right].
    eapply BindButton_snapshot; [exact E1|by left].
  - eapply BindButton_snapshot; [exact E4|right].
    eapply BindButton_snapshot; [exact E3|right].
    eapply BindButton_snapshot; [exact E2|by left].
  - eapply BindButton_snapshot; [exact E4|right].
    eapply BindButton_snapshot; [exact E3|by left].
  - eapply BindButton_snapshot; [exact E4|by left].
Qed.

(** *** Invariants of the reachable states *)

Lemma dispatch_keys e g g' :
  dispatch e g = Some (tt, g') ->
  (keys_agree g -> keys_agree g') /\ (keys_live g -> keys_live g').
Proof.
  destruct e as [|f|B|B]; simpl; intros E.
  - by apply BindButtonHoverEffects_keys.
  - apply invoke_keeps in E as [Ew Eb].
    unfold keys_agree, keys_live. by rewrite Ew, Eb.
  - apply ApplyHoverEffect_frame in E as (Ew&_&Eb).
    unfold keys_agree, keys_live. by rewrite Ew, Eb.
  - apply RemoveHoverEffect_frame in E as (Ew&_&Eb).
    unfold keys_agree, keys_live. by rewrite Ew, Eb.
Qed.

Lemma constructed_keys g : constructed g -> keys_agree g /\ keys_live g.
Proof.
  intros [Et Ec]. unfold keys_agree, keys_live. rewrite Et, Ec.
  split; [done|]. rewrite dom_empty_L. apply empty_subseteq.
Qed.

Lemma reachable_keys g : reachable g -> keys_agree g /\ keys_live g.
Proof.
  induction 1 as [g C|g e g' _ [IH1 IH2] E].
  - by apply constructed_keys.
  - apply dispatch_keys in E as [K1 K2]. auto.
Qed.

Lemma BindButtonHoverEffects_fields g g' k :
  BindButtonHoverEffects g = Some (tt, g') ->
  button_field k (This g') = button_field k (This g).
Proof.
  intros E. apply BindButtonHoverEffects_inv in E as (g1&g2&g3&E1&E2&E3&E4).
  rewrite (BindButton_fields _ _ _ _ _ k E4), (BindButton_fields _ _ _ _ _ k E3),
    (BindButton_fields _ _ _ _ _ k E2). by apply (BindButton_fields _ _ _ _ _ k E1).
Qed.

(** A captured element, spelled out. *)
Lemma captured_inv g b :
  captured g b ->
  exists o,
    Buttons g !! b = Some o /\
    OriginalTransforms (This g) !! b = Some (RenderTransform o) /\
    OriginalColors (This g) !! b = Some (ColorAndOpacity o).
Proof.
  unfold captured, snapshot, style. intros [[p S] E].
  destruct (Buttons g !! b) as [o|]; [|done]. exists o.
  destruct (OriginalTransforms (This g) !! b), (OriginalColors (This g) !! b);
    by simplify_eq.
Qed.

(** A known element of a reachable state, spelled out. *)
Lemma reachable_known g b :
  reachable g ->
  b ∈ dom (OriginalTransforms (This g)) ->
  exists t c o,
    OriginalTransforms (This g) !! b = Some t /\
    OriginalColors (This g) !! b = Some c /\
    Buttons g !! b = Some o.
Proof.
  intros Hr Hb. destruct (reachable_keys _ Hr) as [Ka Kl].
  assert (Hc : b ∈ dom (OriginalColors (This g))) by (by rewrite <- Ka).
  assert (Ho : b ∈ dom (Buttons g)) by (by apply Kl).
  apply elem_of_dom in Hb as [t ?]. apply elem_of_dom in Hc as [c ?].
  apply elem_of_dom in Ho as [o ?]. by exists t, c, o.
Qed.

(** *** Scale and colour of the hover style *)

(** C1 (the code departs from it).  The claim: on hover, an element's
    scale becomes its baseline scale times [HoverScaleMultiplier] on both
    axes.  The code assigns the multiplier itself as the scale: with the
    Play button at baseline scale (2, 2) and the default multiplier 1.05,
    binding and then hovering leaves the scale at (1.05, 1.05), which is
    not (2 * 1.05, 2 * 1.05). *)
Theorem C1_hover_scale_is_the_multiplier_alone :
  let m := Float32.decimal 105 100 in
  match style_after (BindButtonHoverEffects ;; OnPlayButtonHovered)
                    (menu two two) 1%positive with
  | Some (t, _) =>
      Scale t = mkVector2D m m /\
      Scale t <> mkVector2D (Float32.mul two m) (Float32.mul two m)
  | None => False
  end.
Proof. vm_compute. split; [reflexivity|discriminate]. Qed.

(** C7.  On hover of a known element, the colour applied is the stored
    baseline colour times [HoverColorTint], channel by channel, alpha
    included, and nothing is clamped: the tint (1.2, 1.2, 1.2, 1.0) on the
    baseline (0.5, 0.5, 0.5, 1.0) gives (0.6, 0.6, 0.6, 1.0), and on white
    it gives (1.2, 1.2, 1.2, 1.0), above the displayable range. *)
Theorem C7_hover_color_is_channelwise_product :
  (forall g b t c o,
      OriginalTransforms (This g) !! b = Some t ->
      OriginalColors (This g) !! b = Some c ->
      Buttons g !! b = Some o ->
      exists g' o',
        ApplyHoverEffect (Some b) g = Some (tt, g') /\
        Buttons g' !! b = Some o' /\
        ColorAndOpacity o' =
          mkLinearColor (Float32.mul (R c) (R (HoverColorTint (This g))))
                        (Float32.mul (G c) (G (HoverColorTint (This g))))
                        (Float32.mul (B c) (B (HoverColorTint (This g))))
                        (Float32.mul (A c) (A (HoverColorTint (This g))))) /\
  (let tint := mkLinearColor (Float32.decimal 12 10) (Float32.decimal 12 10)
                             (Float32.decimal 12 10) (Float32.of_Z 1) in
   let half := Float32.decimal 5 10 in
   let six_tenths := Float32.decimal 6 10 in
   LinearColor_mul (mkLinearColor half half half one) tint =
     mkLinearColor six_tenths six_tenths six_tenths one /\
   LinearColor_mul (mkLinearColor one one one one) tint = tint /\
   Float32.leb (R tint) one = false /\
   fmap snd (style_after OnPlayButtonHovered bound_menu 1%positive) =
     Some (mkLinearColor six_tenths six_tenths six_tenths one)).
Proof.
  split.
  - intros g b t c o Et Ec Eo.
    eexists _, _. split; [by apply ApplyHoverEffect_known|].
    simpl. by rewrite lookup_insert_eq.
  - vm_compute. repeat split; reflexivity.
Qed.

Lemma C7_hover_color_witness :
  exists g' o',
    ApplyHoverEffect (Some 1%positive) bound_menu = Some (tt, g') /\
    Buttons g' !! 1%positive = Some o' /\
    ColorAndOpacity o' =
      mkLinearColor
        (Float32.mul (R grey) (R (HoverColorTint (This bound_menu))))
        (Float32.mul (G grey) (G (HoverColorTint (This bound_menu))))
        (Float32.mul (B grey) (B (HoverColorTint (This bound_menu))))
        (Float32.mul (A grey) (A (HoverColorTint (This bound_menu)))).
Proof.
  apply (proj1 C7_hover_color_is_channelwise_product bound_menu 1%positive
           (identity_transform one one) grey
           (mkButton (identity_transform one one) grey
                     [OnPlayButtonHovered_fn] [OnPlayButtonUnhovered_fn]));
    vm_compute; reflexivity.
Defined.

(** *** Snapshots and restoring *)

(** C2 (the code departs from it).  The claim: registering an element a
    second time leaves its stored snapshot as first captured, even after a
    hover in between.  [TMap::Add] replaces the stored value, and
    [BindButtonHoverEffects] calls it without looking for an entry: binding
    the menu, hovering the Play button and binding again stores the hover
    style (scale 1.05, colour 0.6) as the snapshot, in place of the style
    first captured (scale 1, colour 0.5). *)
Theorem C2_second_bind_overwrites_snapshot :
  let first :=
    snapshot_after BindButtonHoverEffects (menu one one) 1%positive in
  let second :=
    snapshot_after
      (BindButtonHoverEffects ;; OnPlayButtonHovered ;; BindButtonHoverEffects)
      (menu one one) 1%positive in
  first = Some (identity_transform one one, grey) /\
  second = style_after (BindButtonHoverEffects ;; OnPlayButtonHovered)
                       (menu one one) 1%positive /\
  second = Some (identity_transform (Float32.decimal 105 100)
                                    (Float32.decimal 105 100),
                 mkLinearColor (Float32.decimal 6 10) (Float32.decimal 6 10)
                               (Float32.decimal 6 10) one) /\
  second <> first.
Proof. vm_compute. repeat split; try reflexivity. discriminate. Qed.

(** C3.  An element that is registered, then hovered, then unhovered shows
    the transform and colour it had when it was registered: for each
    button [k] of the widget that [BindButtonHoverEffects] bound, the
    hover handler followed by the unhover handler both run, and the
    button's style is then the one it had before binding. *)
Theorem C3_register_hover_unhover_restores g g1 k b :
  BindButtonHoverEffects g = Some (tt, g1) ->
  button_field k (This g) = Some b ->
  exists g2 g3,
    invoke (hovered_handler k) g1 = Some (tt, g2) /\
    invoke (unhovered_handler k) g2 = Some (tt, g3) /\
    is_Some (style g b) /\
    style g3 b = style g b.
Proof.
  intros Eb Ek.
  pose proof (BindButtonHoverEffects_snapshot _ _ _ _ Eb Ek) as Hc.
  pose proof (BindButtonHoverEffects_fields _ _ k Eb) as Ef.
  rewrite Ek in Ef.
  rewrite <- (BindButtonHoverEffects_style _ _ b Eb).
  destruct (captured_inv _ _ Hc) as (o&Eo&Et&Ec).
  eexists _, _. split; [|split; [|split]].
  - rewrite hovered_handler_run, Ef. by apply ApplyHoverEffect_known.
  - rewrite unhovered_handler_run. simpl. rewrite Ef.
    apply RemoveHoverEffect_known; simpl; [done|done|].
    apply lookup_insert_eq.
  - apply Hc.
  - unfold style. simpl. by rewrite lookup_insert_eq, Eo.
Qed.

Lemma bound_menu_run :
  BindButtonHoverEffects (menu one one) = Some (tt, bound_menu).
Proof. vm_compute. reflexivity. Qed.

Lemma C3_register_hover_unhover_witness :
  exists g2 g3,
    invoke (hovered_handler Play) bound_menu = Some (tt, g2) /\
    invoke (unhovered_handler Play) g2 = Some (tt, g3) /\
    is_Some (style (menu one one) 1%positive) /\
    style g3 1%positive = style (menu one one) 1%positive.
Proof.
  apply (C3_register_hover_unhover_restores (menu one one) bound_menu Play
           1%positive); vm_compute; reflexivity.
Defined.

Lemma bound_menu_reachable : reachable bound_menu.
Proof.
  apply (reachable_step (menu one one) EvBind).
  - apply reachable_constructed. by split.
  - apply bound_menu_run.
Qed.

(** Only the widget's own buttons ever get a snapshot. *)
Lemma BindButton_keys_bound k f u g g' :
  BindButton (button_field k (This g)) f u g = Some (tt, g') ->
  keys_bound g -> keys_bound g'.
Proof.
  intros E K. apply BindButton_inv in E as [[_ ->]|(b&o&Ek&_&Et&_&_&F)]; [done|].
  intros x. rewrite Et, dom_insert_L, elem_of_union, elem_of_singleton.
  intros [->|Hx].
  - exists k. by rewrite F.
  - destruct (K x Hx) as [k' ?]. exists k'. by rewrite F.
Qed.

Lemma BindButtonHoverEffects_keys_bound g g' :
  BindButtonHoverEffects g = Some (tt, g') -> keys_bound g -> keys_bound g'.
Proof.
  intros E K. apply BindButtonHoverEffects_inv in E as (g1&g2&g3&E1&E2&E3&E4).
  assert (F1 : forall k, button_field k (This g1) = button_field k (This g))
    by (intros k; apply (BindButton_fields _ _ _ _ _ k E1)).
  assert (F2 : forall k, button_field k (This g2) = button_field k (This g)).
  { intros k. rewrite <- F1. apply (BindButton_fields _ _ _ _ _ k E2). }
  assert (F3 : forall k, button_field k (This g3) = button_field k (This g)).
  { intros k. rewrite <- F2. apply (BindButton_fields _ _ _ _ _ k E3). }
  eapply (BindButton_keys_bound Quit); [rewrite F3; exact E4|].
  eapply (BindButton_keys_bound Content); [rewrite F2; exact E3|].
  eapply (BindButton_keys_bound Settings); [rewrite F1; exact E2|].
  eapply (BindButton_keys_bound Play); [exact E1|exact K].
Qed.

Lemma reachable_keys_bound g : reachable g -> keys_bound g.
Proof.
  induction 1 as [g [Et _]|g e g' _ IH E].
  - intros b. rewrite Et, dom_empty_L. by intros ?%not_elem_of_empty.
  - destruct e as [|f|B|B]; simpl in E.
    + by apply (BindButtonHoverEffects_keys_bound g).
    + apply invoke_keeps in E as [Ew _]. unfold keys_bound. by rewrite Ew.
    + apply ApplyHoverEffect_frame in E as (Ew&_&_).
      unfold keys_bound. by rewrite Ew.
    + apply RemoveHoverEffect_frame in E as (Ew&_&_).
      unfold keys_bound. by rewrite Ew.
Qed.

(** C6.  In any reachable state, for an element that is null, or has no
    snapshot, or is none of the widget's buttons (so that it was never
    registered), [ApplyHoverEffect] and [RemoveHoverEffect] return normally
    and leave the whole state, hence every transform and colour, as it was;
    a handler whose button is such an element changes no button. *)
Theorem C6_unknown_or_null_element_is_untouched g B :
  reachable g ->
  B = None \/
    (exists b, B = Some b /\
       (OriginalTransforms (This g) !! b = None \/
        forall k, button_field k (This g) <> Some b)) ->
  (ApplyHoverEffect B g = Some (tt, g) /\
   RemoveHoverEffect B g = Some (tt, g)) /\
  (forall k, button_field k (This g) = B ->
     invoke (unhovered_handler k) g = Some (tt, g) /\
     exists g', invoke (hovered_handler k) g = Some (tt, g') /\
                This g' = This g /\ Buttons g' = Buttons g).
Proof.
  intros Hr HB.
  assert (E : ApplyHoverEffect B g = Some (tt, g) /\
              RemoveHoverEffect B g = Some (tt, g)).
  { destruct HB as [->|(b&->&Hb)]; [done|].
    assert (Et : OriginalTransforms (This g) !! b = None).
    { destruct Hb as [?|Hk]; [done|]. apply not_elem_of_dom. intros Hd.
      destruct (reachable_keys_bound _ Hr b Hd) as [k ?]. by apply (Hk k). }
    destruct (reachable_keys _ Hr) as [Ka _].
    assert (Ec : OriginalColors (This g) !! b = None).
    { apply not_elem_of_dom. rewrite <- Ka. by apply not_elem_of_dom. }
    unfold ApplyHoverEffect, RemoveHoverEffect, bind, this, ret. simpl.
    by rewrite Et, Ec. }
  split; [exact E|]. destruct E as [Ea Er]. intros k <-. split.
  - by rewrite unhovered_handler_run.
  - rewrite hovered_handler_run, ApplyHoverEffect_log, Ea. eauto.
Qed.

Lemma C6_unknown_element_witness :
  (ApplyHoverEffect (Some 9%positive) bound_menu = Some (tt, bound_menu) /\
   RemoveHoverEffect (Some 9%positive) bound_menu = Some (tt, bound_menu)) /\
  (forall k, button_field k (This bound_menu) = Some 9%positive ->
     invoke (unhovered_handler k) bound_menu = Some (tt, bound_menu) /\
     exists g', invoke (hovered_handler k) bound_menu = Some (tt, g') /\
                This g' = This bound_menu /\ Buttons g' = Buttons bound_menu).
Proof.
  apply (C6_unknown_or_null_element_is_untouched bound_menu (Some 9%positive)).
  - apply bound_menu_reachable.
  - right. exists 9%positive. split; [reflexivity|]. left.
    vm_compute. reflexivity.
Defined.

(** C8.  A hover handler plays the hover sound exactly when
    [bPlaySoundOnHover] is set and [HoverSound] is configured; in every
    other case the audio log is as before.  Either way the handler goes on
    to the hover effect: it fails or returns as [ApplyHoverEffect] does on
    its button, with the same widget fields and the same buttons. *)
Theorem C8_hover_sound_iff_enabled_and_configured k g :
  match invoke (hovered_handler k) g,
        ApplyHoverEffect (button_field k (This g)) g with
  | Some (_, g'), Some (_, ga) =>
      This g' = This ga /\ Buttons g' = Buttons ga /\
      match bPlaySoundOnHover (This g), HoverSound (This g) with
      | true, Some s => Played g' = s :: Played g
      | _, _ => Played g' = Played g
      end
  | None, None => True
  | _, _ => False
  end.
Proof.
  rewrite hovered_handler_run, ApplyHoverEffect_log.
  destruct (ApplyHoverEffect _ g) as [[[] ga]|]; [|done].
  simpl. unfold sound_log.
  by destruct (bPlaySoundOnHover (This g)), (HoverSound (This g)).
Qed.

(** C9.  The transform map and the colour map have the same keys: this
    holds of a widget as constructed, and every event (binding, a hover or
    unhover handler, applying or removing the effect) that returns
    preserves it; an element then has a stored transform exactly when it
    has a stored colour. *)
Theorem C9_snapshot_maps_have_the_same_keys :
  (forall g, constructed g -> keys_agree g) /\
  (forall g e g', keys_agree g -> dispatch e g = Some (tt, g') -> keys_agree g') /\
  (forall g b, reachable g ->
     is_Some (OriginalTransforms (This g) !! b) <->
     is_Some (OriginalColors (This g) !! b)).
Proof.
  split; [|split].
  - intros g C. by apply constructed_keys.
  - intros g e g' K E. by apply (dispatch_keys _ _ _ E).
  - intros g b Hr. destruct (reachable_keys _ Hr) as [Ka _].
    rewrite <- !elem_of_dom. by rewrite Ka.
Qed.

Lemma C9_same_keys_witness :
  keys_agree bound_menu /\
  (is_Some (OriginalTransforms (This bound_menu) !! 1%positive) <->
   is_Some (OriginalColors (This bound_menu) !! 1%positive)).
Proof.
  destruct C9_snapshot_maps_have_the_same_keys as (Hc & Hs & Hr).
  split.
  - apply (Hs (menu one one) EvBind bound_menu).
    + apply Hc. split; reflexivity.
    + vm_compute. reflexivity.
  - apply Hr, bound_menu_reachable.
Defined.

(** C10.  Hovering a registered element twice in a row is the same as
    hovering it once: in a reachable state, [ApplyHoverEffect] on an
    element with a snapshot returns a state that a second call leaves
    unchanged, and a second call of a hover handler leaves every button
    as the first call did. *)
Theorem C10_hover_enter_is_idempotent g b :
  reachable g ->
  b ∈ dom (OriginalTransforms (This g)) ->
  (exists g1,
     ApplyHoverEffect (Some b) g = Some (tt, g1) /\
     ApplyHoverEffect (Some b) g1 = Some (tt, g1)) /\
  (forall k, button_field k (This g) = Some b ->
     exists g1 g2,
       invoke (hovered_handler k) g = Some (tt, g1) /\
       invoke (hovered_handler k) g1 = Some (tt, g2) /\
       Buttons g2 = Buttons g1).
Proof.
  intros Hr Hb. destruct (reachable_known _ _ Hr Hb) as (t&c&o&Et&Ec&Eo).
  pose proof (ApplyHoverEffect_known _ _ _ _ _ Et Ec Eo) as E1.
  set (o1 := mkButton (hover_transform (This g) t)
                      (LinearColor_mul c (HoverColorTint (This g)))
                      (OnHovered o) (OnUnhovered o)) in *.
  assert (E2 : forall l,
    ApplyHoverEffect (Some b) (mkGame (This g) (<[b := o1]> (Buttons g)) l) =
    Some (tt, mkGame (This g) (<[b := o1]> (Buttons g)) l)).
  { intros l.
    rewrite (ApplyHoverEffect_known _ b t c o1); simpl;
      [|done|done|apply lookup_insert_eq].
    by rewrite insert_insert_eq. }
  split.
  - eexists. split; [exact E1|apply E2].
  - intros k Ek. eexists _, _. split; [|split].
    + rewrite hovered_handler_run, Ek, ApplyHoverEffect_log, E1. reflexivity.
    + rewrite hovered_handler_run. simpl. rewrite Ek. apply E2.
    + reflexivity.
Qed.

Lemma C10_hover_enter_witness :
  (exists g1,
     ApplyHoverEffect (Some 2%positive) bound_menu = Some (tt, g1) /\
     ApplyHoverEffect (Some 2%positive) g1 = Some (tt, g1)) /\
  (forall k, button_field k (This bound_menu) = Some 2%positive ->
     exists g1 g2,
       invoke (hovered_handler k) bound_menu = Some (tt, g1) /\
       invoke (hovered_handler k) g1 = Some (tt, g2) /\
       Buttons g2 = Buttons g1).
Proof.
  apply (C10_hover_enter_is_idempotent bound_menu 2%positive).
  - apply bound_menu_reachable.
  - apply elem_of_dom. vm_compute. eexists. reflexivity.
Defined.

End MainMenuFacts.

(** * Properties of the game instance *)

Module GameInstanceFacts.
Import GameInstance.

Lemma same_widget_refl w : same_widget w w = true.
Proof. apply Pos.eqb_refl. Qed.

(** *** [ShowMainMenu] *)

(** [ShowMainMenu] returns from every state, with or without a current
    widget, and leaves the timers as they are. *)
Lemma ShowMainMenu_total s :
  exists s', ShowMainMenu s = Some (tt, s') /\
             Timers (Host s') = Timers (Host s).
Proof.
  destruct s as [[lc mc d cw th] [v n can pc ts nh t]].
  unfold_calls.
  destruct cw as [w|], mc as [cls|]; simpl;
    try destruct (can cls); simpl;
    destruct pc as [c|]; simpl; eauto.
Qed.

(** From a state that shows its current widget only, the call leaves a
    state of the same kind whose current widget is the new main menu, if
    one could be created. *)
Lemma ShowMainMenu_shows_current s :
  shows_current s ->
  exists s',
    ShowMainMenu s = Some (tt, s') /\
    shows_current s' /\
    current_class s' = menu_class s /\
    menu_class s' = menu_class s /\
    (cursor_shown s' =
       match menu_class s with
       | Some _ => match cursor_shown s with Some _ => Some true | None => None end
       | None => cursor_shown s
       end).
Proof.
  destruct s as [[lc mc d cw th] [v n can pc ts nh t]].
  unfold shows_current, current_class, menu_class, cursor_shown.
  simpl. intros ->. unfold_calls.
  destruct cw as [w|], mc as [cls|]; simpl;
    rewrite ?same_widget_refl; simpl;
    try destruct (can cls) eqn:Hc; simpl;
    destruct pc as [c|]; simpl;
    eexists; (split; [reflexivity|]); simpl; rewrite ?Hc; done.
Qed.

(** *** [Init] *)

Lemma Init_shows_current s :
  at_startup s -> exists s', Init s = Some (tt, s') /\ shows_current s'.
Proof.
  destruct s as [[lc mc d cw th] [v n can pc ts nh t]].
  unfold at_startup, shows_current. simpl. intros (-> & -> & ->).
  unfold_calls.
  destruct lc as [cls|]; simpl;
    try destruct (can cls); simpl;
    destruct pc as [c|]; simpl; eauto.
Qed.

(** With no loading screen, [Init] sets no timer. *)
Lemma Init_without_widget s :
  at_startup s ->
  match LoadingScreenWidgetClass (This s) with
  | Some cls => CanCreateWidget (Host s) cls = false
  | None => True
  end ->
  exists s', Init s = Some (tt, s') /\ Timers (Host s') = [] /\
             CurrentWidget (This s') = None.
Proof.
  destruct s as [[lc mc d cw th] [v n can pc ts nh t]].
  unfold at_startup. simpl. intros (-> & -> & ->) H.
  unfold_calls.
  destruct lc as [cls|]; simpl; [rewrite H|]; simpl; eauto.
Qed.

Lemma Init_with_widget s cls :
  at_startup s ->
  LoadingScreenWidgetClass (This s) = Some cls ->
  CanCreateWidget (Host s) cls = true ->
  exists s',
    Init s = Some (tt, s') /\
    Timers (Host s') =
      [mkTimerData (NextHandle (Host s)) ShowMainMenu_fn
                   (LoadingScreenDuration (This s)) false (deadline s)].
Proof.
  destruct s as [[lc mc d cw th] [v n can pc ts nh t]].
  unfold at_startup, deadline. simpl. intros (-> & -> & ->) -> Hc.
  unfold_calls. rewrite Hc. simpl.
  destruct pc as [c|]; simpl; eauto.
Qed.

(** *** The clock *)

Lemma Tick_idle now s :
  Timers (Host s) = [] ->
  exists s', Tick now s = Some ([], s') /\ Timers (Host s') = [].
Proof.
  destruct s as [gi [v n can pc ts nh t]]. simpl. intros ->.
  unfold Tick. unfold_calls. eauto.
Qed.

Lemma Run_idle clock : forall s,
  Timers (Host s) = [] ->
  exists s', Run clock s = Some ([], s') /\ Timers (Host s') = [].
Proof.
  induction clock as [|now rest IH]; intros s Hs; simpl.
  - by exists s.
  - destruct (Tick_idle now s Hs) as (s1 & E1 & H1).
    destruct (IH s1 H1) as (s2 & E2 & H2).
    exists s2. unfold bind. by rewrite E1, E2.
Qed.

(** One tick with a single single-shot timer for [ShowMainMenu] pending:
    the delegate is called when the timer has expired, and the timer is
    gone; otherwise nothing is called and the timer stays. *)
Lemma Tick_single now s h r d :
  Timers (Host s) = [mkTimerData h ShowMainMenu_fn r false d] ->
  exists s',
    Tick now s =
      Some (if Float32.leb d now then [ShowMainMenu_fn] else [], s') /\
    Timers (Host s') =
      if Float32.leb d now then []
      else [mkTimerData h ShowMainMenu_fn r false d].
Proof.
  destruct s as [gi [v n can pc ts nh t]]. simpl. intros ->.
  unfold Tick, bind at 1, engine. simpl. unfold expired. simpl.
  destruct (Float32.leb d now); simpl.
  - unfold bind at 1, set_Timers, bind at 1, engine, set_engine. simpl.
    unfold bind at 1, set_InternalTime, bind at 1, engine, set_engine. simpl.
    unfold bind at 1.
    match goal with |- context [ShowMainMenu ?x] =>
      destruct (ShowMainMenu_total x) as (s' & E & T); rewrite E end.
    exists s'. by split.
  - unfold bind, set_Timers, set_InternalTime, engine, set_engine, ret. simpl.
    eauto.
Qed.

Lemma Run_single clock : forall s h r d,
  Timers (Host s) = [mkTimerData h ShowMainMenu_fn r false d] ->
  exists s',
    Run clock s = Some (if reached d clock then [ShowMainMenu_fn] else [], s').
Proof.
  induction clock as [|now rest IH]; intros s h r d Hs; simpl.
  - by exists s.
  - destruct (Tick_single now s h r d Hs) as (s1 & E1 & H1).
    unfold bind at 1. rewrite E1.
    destruct (Float32.leb d now); simpl.
    + destruct (Run_idle rest s1 H1) as (s2 & E2 & _).
      exists s2. unfold bind, ret. by rewrite E2.
    + destruct (IH s1 h r d H1) as (s2 & E2).
      exists s2. unfold bind, ret. by rewrite E2.
Qed.

(** *** The delayed transition *)

(** C4, as stated, fails: without a loading screen class [Init] returns
    without setting any timer, so [ShowMainMenu] is never called, however
    far the clock runs. *)
Lemma C4_no_loading_screen_no_transition :
  at_startup without_loading_screen /\
  ~ transition_fires_once without_loading_screen /\
  fired (Init ;; Run [Float32.of_Z 1; Float32.of_Z 2; Float32.of_Z 10])
        without_loading_screen = Some [].
Proof.
  split; [|split].
  - by repeat split.
  - intros (s1 & h & E & T & _). vm_compute in E.
    injection E as <-. discriminate T.
  - vm_compute. reflexivity.
Qed.

(** C4, amended.  When a loading screen class is configured and its
    widget is created, [Init] at startup enters one timer, single-shot,
    bound to [ShowMainMenu] with rate [LoadingScreenDuration]; over any
    run of the clock [ShowMainMenu] is called exactly once if the clock
    reaches the deadline and not before.  When no loading screen widget is
    created, [Init] enters no timer. *)
Theorem C4_transition_scheduled_once_with_loading_screen s :
  at_startup s ->
  match LoadingScreenWidgetClass (This s) with
  | Some cls =>
      if CanCreateWidget (Host s) cls then transition_fires_once s
      else exists s', Init s = Some (tt, s') /\ Timers (Host s') = []
  | None => exists s', Init s = Some (tt, s') /\ Timers (Host s') = []
  end.
Proof.
  intros Hs.
  destruct (LoadingScreenWidgetClass (This s)) as [cls|] eqn:Hl.
  - destruct (CanCreateWidget (Host s) cls) eqn:Hc.
    + destruct (Init_with_widget s cls Hs Hl Hc) as (s1 & E & T).
      exists s1, (NextHandle (Host s)). repeat split; [done|done|].
      intros clock. by apply (Run_single clock s1 _ _ _ T).
    + destruct (Init_without_widget s Hs) as (s1 & E & T & _).
      { by rewrite Hl. }
      by exists s1.
  - destruct (Init_without_widget s Hs) as (s1 & E & T & _).
    { by rewrite Hl. }
    by exists s1.
Qed.

Lemma C4_transition_scheduled_witness : transition_fires_once configured.
Proof.
  apply (C4_transition_scheduled_once_with_loading_screen configured).
  repeat split; reflexivity.
Defined.

(** *** Calling the transition again *)

(** C5.  [ShowMainMenu] returns from every state, also when
    [CurrentWidget] is null.  Called a second time on a state that shows
    its current widget only, it returns again and changes nothing that is
    observed of the controller: the class of the current widget, the
    classes displayed and the cursor are as after the first call, and when
    a main menu can be created it is then the sole widget displayed (the
    second call replaces the first menu object by a new one of the same
    class). *)
Theorem C5_second_transition_changes_nothing s :
  shows_current s ->
  (forall s0, exists s0', ShowMainMenu s0 = Some (tt, s0')) /\
  exists s1 s2,
    ShowMainMenu s = Some (tt, s1) /\
    ShowMainMenu s1 = Some (tt, s2) /\
    current_class s2 = current_class s1 /\
    displayed_classes s2 = displayed_classes s1 /\
    cursor_shown s2 = cursor_shown s1 /\
    shows_current s2 /\
    (forall cls,
       MainMenuWidgetClass (This s) = Some cls ->
       CanCreateWidget (Host s) cls = true ->
       exists w, CurrentWidget (This s2) = Some w /\ WidgetClass w = cls /\
                 Viewport (Host s2) = [(w, 0)]).
Proof.
  intros Hs. split.
  { intros s0. destruct (ShowMainMenu_total s0) as (s0' & E & _). eauto. }
  destruct (ShowMainMenu_shows_current s Hs) as (s1 & E1 & H1 & C1 & M1 & K1).
  destruct (ShowMainMenu_shows_current s1 H1) as (s2 & E2 & H2 & C2 & M2 & K2).
  exists s1, s2. repeat split; try done.
  - congruence.
  - unfold displayed_classes. rewrite H1, H2.
    assert (C : current_class s2 = current_class s1) by congruence.
    unfold current_class in C.
    destruct (CurrentWidget (This s2)), (CurrentWidget (This s1));
      simpl; congruence.
  - rewrite K2, M1, K1. destruct (menu_class s); [|done].
    by destruct (cursor_shown s).
  - intros cls Hm Hc.
    assert (C : current_class s2 = Some cls).
    { rewrite C2, M1. unfold menu_class. by rewrite Hm, Hc. }
    unfold current_class in C. rewrite H2.
    destruct (CurrentWidget (This s2)) as [w|]; [|done].
    exists w. repeat split; congruence.
Qed.

Lemma C5_second_transition_witness :
  (forall s0, exists s0', ShowMainMenu s0 = Some (tt, s0')) /\
  exists s1 s2,
    ShowMainMenu (exec Init configured) = Some (tt, s1) /\
    ShowMainMenu s1 = Some (tt, s2) /\
    current_class s2 = current_class s1 /\
    displayed_classes s2 = displayed_classes s1 /\
    cursor_shown s2 = cursor_shown s1 /\
    shows_current s2 /\
    (forall cls,
       MainMenuWidgetClass (This (exec Init configured)) = Some cls ->
       CanCreateWidget (Host (exec Init configured)) cls = true ->
       exists w, CurrentWidget (This s2) = Some w /\ WidgetClass w = cls /\
                 Viewport (Host s2) = [(w, 0)]).
Proof.
  apply (C5_second_transition_changes_nothing (exec Init configured)).
  vm_compute. reflexivity.
Defined.

End GameInstanceFacts.

(** * Further properties of the main menu widget *)

Module MainMenuMore.
Import MainMenu MainMenuFacts.

(** *** Locality *)

Lemma SetRenderTransform_other g b t g' x :
  SetRenderTransform b t g = Some (tt, g') -> x <> b ->
  Buttons g' !! x = Buttons g !! x.
Proof.
  destruct (Buttons g !! b) as [o|] eqn:E.
  - rewrite (SetRenderTransform_live _ _ _ _ E). intros [= <-] N. simpl.
    by rewrite lookup_insert_ne.
  - run. by rewrite E.
Qed.

Lemma SetColorAndOpacity_other g b c g' x :
  SetColorAndOpacity b c g = Some (tt, g') -> x <> b ->
  Buttons g' !! x = Buttons g !! x.
Proof.
  destruct (Buttons g !! b) as [o|] eqn:E.
  - rewrite (SetColorAndOpacity_live _ _ _ _ E). intros [= <-] N. simpl.
    by rewrite lookup_insert_ne.
  - run. by rewrite E.
Qed.

Lemma ApplyHoverEffect_other B g g' x :
  ApplyHoverEffect B g = Some (tt, g') -> B <> Some x ->
  Buttons g' !! x = Buttons g !! x.
Proof.
  destruct B as [b|]; [|by intros [= <-]].
  intros E N. assert (Nx : x <> b) by congruence. revert E.
  unfold ApplyHoverEffect, bind at 1, this. simpl.
  destruct (OriginalTransforms (This g) !! b) as [t|]; [|by intros [= <-]].
  unfold bind at 1.
  destruct (SetRenderTransform b _ g) as [[[] g1]|] eqn:E1; [|done].
  pose proof (SetRenderTransform_other _ _ _ _ x E1 Nx) as F1.
  destruct (OriginalColors (This g) !! b) as [c|].
  - intros E2. rewrite <- F1. by apply (SetColorAndOpacity_other _ _ _ _ x E2).
  - by intros [= <-].
Qed.

Lemma RemoveHoverEffect_other B g g' x :
  RemoveHoverEffect B g = Some (tt, g') -> B <> Some x ->
  Buttons g' !! x = Buttons g !! x.
Proof.
  destruct B as [b|]; [|by intros [= <-]].
  intros E N. assert (Nx : x <> b) by congruence. revert E.
  unfold RemoveHoverEffect, bind at 1, this. simpl. unfold bind at 1.
  destruct (OriginalTransforms (This g) !! b) as [t|].
  - destruct (SetRenderTransform b t g) as [[[] g1]|] eqn:E1; [|done].
    pose proof (SetRenderTransform_other _ _ _ _ x E1 Nx) as F1.
    destruct (OriginalColors (This g) !! b) as [c|].
    + intros E2. rewrite <- F1. by apply (SetColorAndOpacity_other _ _ _ _ x E2).
    + by intros [= <-].
  - simpl. destruct (OriginalColors (This g) !! b) as [c|].
    + intros E2. by apply (SetColorAndOpacity_other _ _ _ _ x E2).
    + by intros [= <-].
Qed.

Lemma target_hovered k w : target (EvInvoke (hovered_handler k)) w = button_field k w.
Proof. by destruct k. Qed.

Lemma target_unhovered k w : target (EvInvoke (unhovered_handler k)) w = button_field k w.
Proof. by destruct k. Qed.

(** A hover event is [ApplyHoverEffect] or [RemoveHoverEffect] on its
    target, up to the audio log. *)
Lemma dispatch_cases e g :
  is_bind e = false ->
  (exists l, dispatch e g =
             ApplyHoverEffect (target e (This g)) (mkGame (This g) (Buttons g) l)) \/
  dispatch e g = RemoveHoverEffect (target e (This g)) g.
Proof.
  destruct e as [|f|B|B]; [done| | |]; intros _.
  - destruct (handler_cases f) as [[k ->]|[k ->]].
    + left. exists (sound_log g). unfold dispatch.
      by rewrite hovered_handler_run, target_hovered.
    + right. unfold dispatch.
      by rewrite unhovered_handler_run, target_unhovered.
  - left. exists (Played g). simpl. by rewrite game_eta.
  - by right.
Qed.

(** X1.  A hover event touches no button but its target: every other
    button object is after the event exactly what it was before. *)
Theorem hover_event_leaves_other_buttons e g g' x :
  is_bind e = false ->
  dispatch e g = Some (tt, g') ->
  target e (This g) <> Some x ->
  Buttons g' !! x = Buttons g !! x.
Proof.
  intros Hb E N. destruct (dispatch_cases e g Hb) as [[l El]|Er].
  - rewrite El in E. by apply (ApplyHoverEffect_other _ _ _ x) in E.
  - rewrite Er in E. by apply (RemoveHoverEffect_other _ _ _ x) in E.
Qed.

Lemma hover_event_leaves_other_buttons_witness :
  Buttons (match exec OnPlayButtonHovered bound_menu with
           | Some g => g | None => bound_menu end) !! 2%positive =
  Buttons bound_menu !! 2%positive.
Proof.
  apply (hover_event_leaves_other_buttons (EvInvoke OnPlayButtonHovered_fn)
           bound_menu _ 2%positive).
  - reflexivity.
  - vm_compute. reflexivity.
  - vm_compute. discriminate.
Defined.

(** *** What hover events keep *)

Lemma SetRenderTransform_delegates g b t g' x :
  SetRenderTransform b t g = Some (tt, g') -> delegates g' x = delegates g x.
Proof.
  destruct (Buttons g !! b) as [o|] eqn:E.
  - rewrite (SetRenderTransform_live _ _ _ _ E). intros [= <-].
    unfold delegates. simpl. destruct (decide (b = x)) as [->|N].
    + by rewrite lookup_insert_eq, E.
    + by rewrite lookup_insert_ne.
  - run. by rewrite E.
Qed.

Lemma SetColorAndOpacity_delegates g b c g' x :
  SetColorAndOpacity b c g = Some (tt, g') -> delegates g' x = delegates g x.
Proof.
  destruct (Buttons g !! b) as [o|] eqn:E.
  - rewrite (SetColorAndOpacity_live _ _ _ _ E). intros [= <-].
    unfold delegates. simpl. destruct (decide (b = x)) as [->|N].
    + by rewrite lookup_insert_eq, E.
    + by rewrite lookup_insert_ne.
  - run. by rewrite E.
Qed.

Lemma ApplyHoverEffect_delegates B g g' x :
  ApplyHoverEffect B g = Some (tt, g') -> delegates g' x = delegates g x.
Proof.
  destruct B as [b|]; [|by intros [= <-]].
  unfold ApplyHoverEffect, bind at 1, this. simpl.
  destruct (OriginalTransforms (This g) !! b) as [t|]; [|by intros [= <-]].
  unfold bind at 1.
  destruct (SetRenderTransform b _ g) as [[[] g1]|] eqn:E1; [|done].
  pose proof (SetRenderTransform_delegates _ _ _ _ x E1) as F1.
  destruct (OriginalColors (This g) !! b) as [c|].
  - intros E2. rewrite <- F1. by apply (SetColorAndOpacity_delegates _ _ _ _ x E2).
  - by intros [= <-].
Qed.

Lemma RemoveHoverEffect_delegates B g g' x :
  RemoveHoverEffect B g = Some (tt, g') -> delegates g' x = delegates g x.
Proof.
  destruct B as [b|]; [|by intros [= <-]].
  unfold RemoveHoverEffect, bind at 1, this. simpl. unfold bind at 1.
  destruct (OriginalTransforms (This g) !! b) as [t|].
  - destruct (SetRenderTransform b t g) as [[[] g1]|] eqn:E1; [|done].
    pose proof (SetRenderTransform_delegates _ _ _ _ x E1) as F1.
    destruct (OriginalColors (This g) !! b) as [c|].
    + intros E2. rewrite <- F1. by apply (SetColorAndOpacity_delegates _ _ _ _ x E2).
    + by intros [= <-].
  - simpl. destruct (OriginalColors (This g) !! b) as [c|].
    + intros E2. by apply (SetColorAndOpacity_delegates _ _ _ _ x E2).
    + by intros [= <-].
Qed.

Lemma hover_event_keeps e g g' :
  is_bind e = false ->
  dispatch e g = Some (tt, g') ->
  This g' = This g /\ dom (Buttons g') = dom (Buttons g).
Proof.
  intros Hb E. destruct (dispatch_cases e g Hb) as [[l El]|Er].
  - rewrite El in E. apply ApplyHoverEffect_frame in E as (?&?&?). done.
  - rewrite Er in E. apply RemoveHoverEffect_frame in E as (?&?&?). done.
Qed.

(** X2.  A hover event changes nothing of the widget itself (its settings,
    its button pointers and both snapshot maps stay as they are) and leaves
    the handlers bound to every button as they were. *)
Theorem hover_event_keeps_widget_and_delegates e g g' :
  is_bind e = false ->
  dispatch e g = Some (tt, g') ->
  This g' = This g /\ forall x, delegates g' x = delegates g x.
Proof.
  intros Hb E. split; [by apply (hover_event_keeps e g g')|]. intros x.
  destruct (dispatch_cases e g Hb) as [[l El]|Er].
  - rewrite El in E. by apply (ApplyHoverEffect_delegates _ _ _ x) in E.
  - rewrite Er in E. by apply (RemoveHoverEffect_delegates _ _ _ x) in E.
Qed.

Lemma hover_event_keeps_widget_witness :
  let g' := match exec OnPlayButtonHovered bound_menu with
            | Some g => g | None => bound_menu end in
  This g' = This bound_menu /\
  forall x, delegates g' x = delegates bound_menu x.
Proof.
  apply (hover_event_keeps_widget_and_delegates
           (EvInvoke OnPlayButtonHovered_fn) bound_menu).
  - reflexivity.
  - vm_compute. reflexivity.
Defined.

(** *** How the two effects compose *)

(** X3.  On a registered element of a reachable state the style set by
    either effect depends on the snapshot alone, so the later call wins:
    removing after applying is removing, applying after removing is
    applying, and removing twice is removing once. *)
Theorem later_hover_effect_wins g b :
  reachable g ->
  b ∈ dom (OriginalTransforms (This g)) ->
  exists ga gr,
    ApplyHoverEffect (Some b) g = Some (tt, ga) /\
    RemoveHoverEffect (Some b) g = Some (tt, gr) /\
    RemoveHoverEffect (Some b) ga = Some (tt, gr) /\
    ApplyHoverEffect (Some b) gr = Some (tt, ga) /\
    RemoveHoverEffect (Some b) gr = Some (tt, gr).
Proof.
  intros Hr Hb. destruct (reachable_known _ _ Hr Hb) as (t&c&o&Et&Ec&Eo).
  eexists _, _. split; [by apply ApplyHoverEffect_known|].
  split; [by apply RemoveHoverEffect_known|].
  split; [|split].
  - erewrite RemoveHoverEffect_known; simpl; [|done|done|apply lookup_insert_eq].
    by rewrite insert_insert_eq.
  - erewrite ApplyHoverEffect_known; simpl; [|done|done|apply lookup_insert_eq].
    by rewrite insert_insert_eq.
  - erewrite RemoveHoverEffect_known; simpl; [|done|done|apply lookup_insert_eq].
    by rewrite insert_insert_eq.
Qed.

Lemma later_hover_effect_wins_witness :
  exists ga gr,
    ApplyHoverEffect (Some 3%positive) bound_menu = Some (tt, ga) /\
    RemoveHoverEffect (Some 3%positive) bound_menu = Some (tt, gr) /\
    RemoveHoverEffect (Some 3%positive) ga = Some (tt, gr) /\
    ApplyHoverEffect (Some 3%positive) gr = Some (tt, ga) /\
    RemoveHoverEffect (Some 3%positive) gr = Some (tt, gr).
Proof.
  apply (later_hover_effect_wins bound_menu 3%positive).
  - apply bound_menu_reachable.
  - apply elem_of_dom. vm_compute. eexists. reflexivity.
Defined.

(** *** Runs of hover events after binding *)

Lemma style_log g l b : style (mkGame (This g) (Buttons g) l) b = style g b.
Proof. done. Qed.

(** The style of a known element after one of the two effects. *)
Lemma ApplyHoverEffect_style B g g' b t c :
  ApplyHoverEffect B g = Some (tt, g') ->
  OriginalTransforms (This g) !! b = Some t ->
  OriginalColors (This g) !! b = Some c ->
  style g' b = style g b \/ style g' b = Some (hover_style (This g) (t, c)).
Proof.
  intros E Et Ec. destruct (decide (B = Some b)) as [->|N].
  - right. destruct (Buttons g !! b) as [o|] eqn:Eo.
    + rewrite (ApplyHoverEffect_known _ _ _ _ _ Et Ec Eo) in E.
      injection E as <-. unfold style. simpl. by rewrite lookup_insert_eq.
    + revert E. unfold ApplyHoverEffect. run. by rewrite Et, Eo.
  - left. unfold style. by rewrite (ApplyHoverEffect_other _ _ _ b E N).
Qed.

Lemma RemoveHoverEffect_style B g g' b t c :
  RemoveHoverEffect B g = Some (tt, g') ->
  OriginalTransforms (This g) !! b = Some t ->
  OriginalColors (This g) !! b = Some c ->
  style g' b = style g b \/ style g' b = Some (t, c).
Proof.
  intros E Et Ec. destruct (decide (B = Some b)) as [->|N].
  - right. destruct (Buttons g !! b) as [o|] eqn:Eo.
    + rewrite (RemoveHoverEffect_known _ _ _ _ _ Et Ec Eo) in E.
      injection E as <-. unfold style. simpl. by rewrite lookup_insert_eq.
    + revert E. unfold RemoveHoverEffect. run. by rewrite Et, Eo.
  - left. unfold style. by rewrite (RemoveHoverEffect_other _ _ _ b E N).
Qed.

Lemma hover_event_style e g g' b t c :
  is_bind e = false ->
  dispatch e g = Some (tt, g') ->
  OriginalTransforms (This g) !! b = Some t ->
  OriginalColors (This g) !! b = Some c ->
  style g' b = style g b \/ style g' b = Some (t, c) \/
  style g' b = Some (hover_style (This g) (t, c)).
Proof.
  intros Hb E Et Ec. destruct (dispatch_cases e g Hb) as [[l El]|Er].
  - rewrite El in E.
    destruct (ApplyHoverEffect_style _ _ _ b t c E Et Ec) as [H|H]; auto.
  - rewrite Er in E.
    destruct (RemoveHoverEffect_style _ _ _ b t c E Et Ec) as [H|H]; auto.
Qed.

(** Over a run of hover events the widget stays as it is and a known
    element shows its snapshot or the hover style derived from it, if it did
    so before. *)
Lemma play_hover_only es : forall g g' b t c,
  hover_only es = true ->
  play es g = Some (tt, g') ->
  OriginalTransforms (This g) !! b = Some t ->
  OriginalColors (This g) !! b = Some c ->
  style g b = Some (t, c) \/ style g b = Some (hover_style (This g) (t, c)) ->
  This g' = This g /\
  (style g' b = Some (t, c) \/ style g' b = Some (hover_style (This g) (t, c))).
Proof.
  induction es as [|e es IH]; intros g g' b t c Hh E Et Ec Hs.
  - injection E as <-. auto.
  - simpl in Hh. apply andb_prop in Hh as [He Hh].
    apply negb_true_iff in He.
    simpl in E. unfold bind at 1 in E.
    destruct (dispatch e g) as [[[] g1]|] eqn:E1; [|done].
    destruct (hover_event_keeps e g g1 He E1) as [Ew _].
    pose proof (hover_event_style e g g1 b t c He E1 Et Ec) as Hs1.
    destruct (IH g1 g' b t c Hh E) as [Ew' Hs'].
    + by rewrite Ew.
    + by rewrite Ew.
    + rewrite Ew. destruct Hs1 as [->|[->| ->]]; auto.
    + rewrite Ew in Ew', Hs'. auto.
Qed.

(** X4.  Once its buttons are bound, whatever hover events the widget then
    receives (on any buttons, in any order), the unhover handler of a bound
    button returns and gives the button back the transform and colour it
    had when it was bound. *)
Theorem unhover_restores_after_any_hover_events g g1 es g2 k b :
  BindButtonHoverEffects g = Some (tt, g1) ->
  button_field k (This g) = Some b ->
  hover_only es = true ->
  play es g1 = Some (tt, g2) ->
  exists g3,
    invoke (unhovered_handler k) g2 = Some (tt, g3) /\
    is_Some (style g b) /\
    style g3 b = style g b.
Proof.
  intros Eb Ek Hh Ep.
  pose proof (BindButtonHoverEffects_snapshot _ _ _ _ Eb Ek) as Hc.
  pose proof (BindButtonHoverEffects_fields _ _ k Eb) as Ef. rewrite Ek in Ef.
  rewrite <- (BindButtonHoverEffects_style _ _ b Eb).
  destruct (captured_inv _ _ Hc) as (o&Eo&Et&Ec).
  assert (Es : style g1 b = Some (RenderTransform o, ColorAndOpacity o))
    by (unfold style; by rewrite Eo).
  destruct (play_hover_only es g1 g2 b _ _ Hh Ep Et Ec) as [Ew Hs]; [auto|].
  assert (exists o2, Buttons g2 !! b = Some o2) as [o2 Eo2].
  { unfold style in Hs. destruct (Buttons g2 !! b); [eauto|by destruct Hs]. }
  eexists. split; [|split].
  - rewrite unhovered_handler_run, Ew, Ef.
    apply (RemoveHoverEffect_known g2 b (RenderTransform o) (ColorAndOpacity o) o2);
      by rewrite ?Ew.
  - rewrite Es. eauto.
  - rewrite Es. unfold style. simpl. by rewrite lookup_insert_eq.
Qed.

Lemma unhover_restores_after_any_hover_events_witness :
  exists g3,
    invoke (unhovered_handler Play)
      (match exec (play [EvInvoke OnPlayButtonHovered_fn;
                         EvInvoke OnQuitButtonHovered_fn;
                         EvApply (Some 1%positive);
                         EvInvoke OnQuitButtonUnhovered_fn]) bound_menu with
       | Some g => g | None => bound_menu end) = Some (tt, g3) /\
    is_Some (style (menu one one) 1%positive) /\
    style g3 1%positive = style (menu one one) 1%positive.
Proof.
  apply (unhover_restores_after_any_hover_events (menu one one) bound_menu
           [EvInvoke OnPlayButtonHovered_fn; EvInvoke OnQuitButtonHovered_fn;
            EvApply (Some 1%positive); EvInvoke OnQuitButtonUnhovered_fn]
           _ Play 1%positive); vm_compute; reflexivity.
Defined.

(** X5.  Between bindings a bound button only ever shows one of two
    styles: after any run of hover events it has either the style it had
    when it was bound or the hover style derived from that one. *)
Theorem bound_button_shows_baseline_or_hover g g1 es g2 k b :
  BindButtonHoverEffects g = Some (tt, g1) ->
  button_field k (This g) = Some b ->
  hover_only es = true ->
  play es g1 = Some (tt, g2) ->
  style g2 b = style g b \/
  style g2 b = hover_style (This g1) <$> style g b.
Proof.
  intros Eb Ek Hh Ep.
  pose proof (BindButtonHoverEffects_snapshot _ _ _ _ Eb Ek) as Hc.
  rewrite <- (BindButtonHoverEffects_style _ _ b Eb).
  destruct (captured_inv _ _ Hc) as (o&Eo&Et&Ec).
  assert (Es : style g1 b = Some (RenderTransform o, ColorAndOpacity o))
    by (unfold style; by rewrite Eo).
  destruct (play_hover_only es g1 g2 b _ _ Hh Ep Et Ec) as [_ Hs]; [auto|].
  rewrite Es. simpl. done.
Qed.

Lemma bound_button_shows_baseline_or_hover_witness :
  let g2 := match exec (play [EvInvoke OnPlayButtonHovered_fn;
                              EvInvoke OnQuitButtonHovered_fn]) bound_menu with
            | Some g => g | None => bound_menu end in
  style g2 4%positive = style (menu one one) 4%positive \/
  style g2 4%positive =
    hover_style (This bound_menu) <$> style (menu one one) 4%positive.
Proof.
  apply (bound_button_shows_baseline_or_hover (menu one one) bound_menu
           [EvInvoke OnPlayButtonHovered_fn; EvInvoke OnQuitButtonHovered_fn]
           _ Quit 4%positive); vm_compute; reflexivity.
Defined.

(** *** Binding *)

(** One block: the keys it adds, and what it leaves alone. *)
Lemma BindButton_effect B f u g g' :
  BindButton B f u g = Some (tt, g') ->
  dom (OriginalTransforms (This g')) =
    dom (OriginalTransforms (This g)) ∪ field_set B /\
  dom (OriginalColors (This g')) =
    dom (OriginalColors (This g)) ∪ field_set B /\
  Played g' = Played g /\
  settings (This g') = settings (This g).
Proof.
  destruct B as [b|].
  - destruct (Buttons g !! b) as [o|] eqn:E.
    + rewrite (BindButton_live _ _ _ _ _ E). intros [= <-]. simpl.
      rewrite !dom_insert_L. repeat split; by rewrite (comm_L (∪)).
    + by rewrite BindButton_dangling.
  - intros [= <-]. simpl. rewrite !union_empty_r_L. done.
Qed.

(** X6.  Binding adds to both snapshot maps exactly the widget's non-null
    buttons as keys, null buttons being skipped; it plays no sound, keeps
    the hover settings, and changes the style of no button. *)
Theorem binding_registers_the_non_null_buttons g g' :
  BindButtonHoverEffects g = Some (tt, g') ->
  dom (OriginalTransforms (This g')) =
    dom (OriginalTransforms (This g)) ∪ bound_buttons (This g) /\
  dom (OriginalColors (This g')) =
    dom (OriginalColors (This g)) ∪ bound_buttons (This g) /\
  Played g' = Played g /\
  settings (This g') = settings (This g) /\
  forall x, style g' x = style g x.
Proof.
  intros E.
  assert (Hs : forall x, style g' x = style g x)
    by (intros x; by apply BindButtonHoverEffects_style).
  apply BindButtonHoverEffects_inv in E as (g1&g2&g3&E1&E2&E3&E4).
  apply BindButton_effect in E1 as (T1&C1&P1&S1).
  apply BindButton_effect in E2 as (T2&C2&P2&S2).
  apply BindButton_effect in E3 as (T3&C3&P3&S3).
  apply BindButton_effect in E4 as (T4&C4&P4&S4).
  unfold bound_buttons.
  rewrite T4, T3, T2, T1, C4, C3, C2, C1, P4, P3, P2, P1, S4, S3, S2, S1.
  rewrite !(assoc_L (∪)). done.
Qed.

Lemma binding_registers_the_non_null_buttons_witness :
  dom (OriginalTransforms (This bound_menu)) =
    dom (OriginalTransforms (This (menu one one))) ∪
    bound_buttons (This (menu one one)) /\
  dom (OriginalColors (This bound_menu)) =
    dom (OriginalColors (This (menu one one))) ∪
    bound_buttons (This (menu one one)) /\
  Played bound_menu = Played (menu one one) /\
  settings (This bound_menu) = settings (This (menu one one)) /\
  forall x, style bound_menu x = style (menu one one) x.
Proof.
  apply (binding_registers_the_non_null_buttons (menu one one) bound_menu).
  vm_compute. reflexivity.
Defined.

Lemma BindButton_snapshot_other B f u g g' x :
  BindButton B f u g = Some (tt, g') -> B <> Some x ->
  snapshot g' x = snapshot g x.
Proof.
  intros E N. apply BindButton_inv in E as [[_ ->]|(b&o&->&_&Et&Ec&_&_)]; [done|].
  unfold snapshot. rewrite Et, Ec.
  rewrite !lookup_insert_ne by congruence. done.
Qed.

(** X7.  Binding stores for each non-null button of the widget the style
    the button shows at that moment, whatever was stored for it before, and
    leaves the entries of all other elements as they are. *)
Theorem binding_stores_the_current_style g g' :
  BindButtonHoverEffects g = Some (tt, g') ->
  (forall k b, button_field k (This g) = Some b ->
     is_Some (style g b) /\ snapshot g' b = style g b) /\
  (forall x, (forall k, button_field k (This g) <> Some x) ->
     snapshot g' x = snapshot g x).
Proof.
  intros E. split.
  - intros k b Ek.
    destruct (BindButtonHoverEffects_snapshot _ _ _ _ E Ek) as [Hs Hc].
    rewrite (BindButtonHoverEffects_style _ _ b E) in Hs, Hc. done.
  - intros x Hx.
    apply BindButtonHoverEffects_inv in E as (g1&g2&g3&E1&E2&E3&E4).
    rewrite (BindButton_snapshot_other _ _ _ _ _ x E4 (Hx Quit)),
      (BindButton_snapshot_other _ _ _ _ _ x E3 (Hx Content)),
      (BindButton_snapshot_other _ _ _ _ _ x E2 (Hx Settings)).
    apply (BindButton_snapshot_other _ _ _ _ _ x E1 (Hx Play)).
Qed.

Lemma binding_stores_the_current_style_witness :
  (forall k b, button_field k (This (menu two one)) = Some b ->
     is_Some (style (menu two one) b) /\
     snapshot (match exec BindButtonHoverEffects (menu two one) with
               | Some g => g | None => menu two one end) b =
       style (menu two one) b) /\
  (forall x, (forall k, button_field k (This (menu two one)) <> Some x) ->
     snapshot (match exec BindButtonHoverEffects (menu two one) with
               | Some g => g | None => menu two one end) x =
       snapshot (menu two one) x).
Proof.
  apply (binding_stores_the_current_style (menu two one)).
  vm_compute. reflexivity.
Defined.

(** The handlers of a button after one block. *)
Lemma BindButton_delegates B f u g g' x hs us :
  BindButton B f u g = Some (tt, g') ->
  delegates g x = Some (hs, us) ->
  delegates g' x =
    Some (if decide (B = Some x) then (hs ++ [f], us ++ [u]) else (hs, us)).
Proof.
  intros E D. apply BindButton_inv in E as [[-> ->]|(b&o&->&Eo&_&_&Eb&_)].
  - by rewrite decide_False.
  - unfold delegates in *. rewrite Eb. destruct (decide (Some b = Some x)) as [[= ->]|N].
    + rewrite lookup_insert_eq. rewrite Eo in D. by simplify_eq.
    + rewrite lookup_insert_ne by congruence. done.
Qed.

Lemma BindButton_delegates_mono B f u g g' x hs us f0 u0 :
  BindButton B f u g = Some (tt, g') ->
  delegates g x = Some (hs, us) -> f0 ∈ hs -> u0 ∈ us ->
  exists hs' us', delegates g' x = Some (hs', us') /\ f0 ∈ hs' /\ u0 ∈ us'.
Proof.
  intros E D Hf Hu. rewrite (BindButton_delegates _ _ _ _ _ _ _ _ E D).
  destruct (decide (B = Some x)); eexists _, _; (split; [done|]);
    rewrite ?elem_of_app; auto.
Qed.

Lemma BindButton_delegates_new b f u g g' :
  BindButton (Some b) f u g = Some (tt, g') ->
  exists hs' us', delegates g' b = Some (hs', us') /\ f ∈ hs' /\ u ∈ us'.
Proof.
  intros E. destruct (Buttons g !! b) as [o|] eqn:Eo.
  - rewrite (BindButton_delegates _ _ _ _ _ b (OnHovered o) (OnUnhovered o) E)
      by (unfold delegates; by rewrite Eo).
    rewrite decide_True by done. eexists _, _. split; [done|].
    rewrite !elem_of_app, !list_elem_of_singleton. auto.
  - by rewrite BindButton_dangling in E.
Qed.

(** X8.  After binding, the hover delegate of each non-null button of the
    widget holds the button's hover handler and its unhover delegate holds
    its unhover handler. *)
Theorem binding_subscribes_the_handlers g g' k b :
  BindButtonHoverEffects g = Some (tt, g') ->
  button_field k (This g) = Some b ->
  exists hs us,
    delegates g' b = Some (hs, us) /\
    hovered_handler k ∈ hs /\ unhovered_handler k ∈ us.
Proof.
  intros E Ek. apply BindButtonHoverEffects_inv in E as (g1&g2&g3&E1&E2&E3&E4).
  destruct k; simpl in Ek; simpl.
  - rewrite Ek in E1. apply BindButton_delegates_new in E1 as (h1&u1&D1&F1&U1).
    destruct (BindButton_delegates_mono _ _ _ _ _ _ _ _ _ _ E2 D1 F1 U1)
      as (h2&u2&D2&F2&U2).
    destruct (BindButton_delegates_mono _ _ _ _ _ _ _ _ _ _ E3 D2 F2 U2)
      as (h3&u3&D3&F3&U3).
    apply (BindButton_delegates_mono _ _ _ _ _ _ _ _ _ _ E4 D3 F3 U3).
  - rewrite Ek in E2. apply BindButton_delegates_new in E2 as (h2&u2&D2&F2&U2).
    destruct (BindButton_delegates_mono _ _ _ _ _ _ _ _ _ _ E3 D2 F2 U2)
      as (h3&u3&D3&F3&U3).
    apply (BindButton_delegates_mono _ _ _ _ _ _ _ _ _ _ E4 D3 F3 U3).
  - rewrite Ek in E3. apply BindButton_delegates_new in E3 as (h3&u3&D3&F3&U3).
    apply (BindButton_delegates_mono _ _ _ _ _ _ _ _ _ _ E4 D3 F3 U3).
  - rewrite Ek in E4. by apply BindButton_delegates_new in E4.
Qed.

Lemma binding_subscribes_the_handlers_witness :
  exists hs us,
    delegates bound_menu 3%positive = Some (hs, us) /\
    hovered_handler Content ∈ hs /\ unhovered_handler Content ∈ us.
Proof.
  apply (binding_subscribes_the_handlers (menu one one) bound_menu Content
           3%positive); vm_compute; reflexivity.
Defined.

(** A block on a button whose snapshot is its current style stores what is
    stored already. *)
Lemma BindButton_captured B f u g :
  (forall b, B = Some b -> captured g b) ->
  exists g',
    BindButton B f u g = Some (tt, g') /\
    OriginalTransforms (This g') = OriginalTransforms (This g) /\
    OriginalColors (This g') = OriginalColors (This g) /\
    (forall x, captured g x -> captured g' x) /\
    (forall k, button_field k (This g') = button_field k (This g)).
Proof.
  intros H. destruct B as [b|].
  - destruct (captured_inv _ _ (H b eq_refl)) as (o&Eo&Et&Ec).
    pose proof (BindButton_live g b f u o Eo) as E.
    eexists. split; [exact E|].
    split; [simpl; by rewrite insert_id|].
    split; [simpl; by rewrite insert_id|]. split.
    + intros x Hx. eapply BindButton_snapshot; [exact E|by right].
    + by intros [].
  - exists g. split; [done|]. split; [done|]. split; [done|]. split; auto.
Qed.

(** X9.  When every button of the widget shows the style stored as its
    snapshot (as it does after a first binding, or after each hovered button
    has been unhovered), binding again returns and leaves both snapshot maps
    and every style exactly as they are. *)
Theorem binding_again_at_baseline_keeps_snapshots g :
  all_captured g ->
  exists g',
    BindButtonHoverEffects g = Some (tt, g') /\
    OriginalTransforms (This g') = OriginalTransforms (This g) /\
    OriginalColors (This g') = OriginalColors (This g) /\
    forall x, style g' x = style g x.
Proof.
  intros H.
  destruct (BindButton_captured (PlayButton (This g)) OnPlayButtonHovered_fn
              OnPlayButtonUnhovered_fn g) as (g1&E1&T1&C1&K1&F1).
  { intros b Hb. by apply (H Play). }
  destruct (BindButton_captured (SettingsButton (This g))
              OnSettingsButtonHovered_fn OnSettingsButtonUnhovered_fn g1)
    as (g2&E2&T2&C2&K2&F2).
  { intros b Hb. by apply K1, (H Settings). }
  destruct (BindButton_captured (ContentButton (This g))
              OnContentButtonHovered_fn OnContentButtonUnhovered_fn g2)
    as (g3&E3&T3&C3&K3&F3).
  { intros b Hb. by apply K2, K1, (H Content). }
  destruct (BindButton_captured (QuitButton (This g))
              OnQuitButtonHovered_fn OnQuitButtonUnhovered_fn g3)
    as (g4&E4&T4&C4&K4&F4).
  { intros b Hb. by apply K3, K2, K1, (H Quit). }
  assert (E : BindButtonHoverEffects g = Some (tt, g4)).
  { unfold BindButtonHoverEffects, bind, this. simpl. by rewrite E1, E2, E3. }
  exists g4. split; [exact E|]. split; [congruence|]. split; [congruence|].
  intros x. by apply BindButtonHoverEffects_style.
Qed.

Lemma binding_again_at_baseline_witness :
  exists g',
    BindButtonHoverEffects bound_menu = Some (tt, g') /\
    OriginalTransforms (This g') = OriginalTransforms (This bound_menu) /\
    OriginalColors (This g') = OriginalColors (This bound_menu) /\
    forall x, style g' x = style bound_menu x.
Proof.
  apply (binding_again_at_baseline_keeps_snapshots bound_menu).
  intros k b Hk.
  apply (BindButtonHoverEffects_snapshot (menu one one) bound_menu k b).
  - vm_compute. reflexivity.
  - exact Hk.
Defined.

(** *** Hover events never fail *)

Lemma ApplyHoverEffect_returns B g :
  keys_agree g -> keys_live g ->
  exists g', ApplyHoverEffect B g = Some (tt, g').
Proof.
  intros Ka Kl. destruct B as [b|]; [|by exists g].
  destruct (OriginalTransforms (This g) !! b) as [t|] eqn:Et.
  - assert (Hb : b ∈ dom (OriginalTransforms (This g)))
      by (apply elem_of_dom; eauto).
    assert (Ho : b ∈ dom (Buttons g)) by (by apply Kl).
    rewrite Ka in Hb. apply elem_of_dom in Hb as [c Ec].
    apply elem_of_dom in Ho as [o Eo].
    eexists. by apply ApplyHoverEffect_known.
  - exists g. unfold ApplyHoverEffect, bind, this, ret. simpl. by rewrite Et.
Qed.

Lemma RemoveHoverEffect_returns B g :
  keys_agree g -> keys_live g ->
  exists g', RemoveHoverEffect B g = Some (tt, g').
Proof.
  intros Ka Kl. destruct B as [b|]; [|by exists g].
  destruct (OriginalTransforms (This g) !! b) as [t|] eqn:Et.
  - assert (Hb : b ∈ dom (OriginalTransforms (This g)))
      by (apply elem_of_dom; eauto).
    assert (Ho : b ∈ dom (Buttons g)) by (by apply Kl).
    rewrite Ka in Hb. apply elem_of_dom in Hb as [c Ec].
    apply elem_of_dom in Ho as [o Eo].
    eexists. by apply RemoveHoverEffect_known.
  - assert (Ec : OriginalColors (This g) !! b = None).
    { apply not_elem_of_dom. rewrite <- Ka. by apply not_elem_of_dom. }
    exists g. unfold RemoveHoverEffect, bind, this, ret. simpl. by rewrite Et, Ec.
Qed.

Lemma hover_event_returns e g :
  reachable g -> is_bind e = false ->
  exists g', dispatch e g = Some (tt, g').
Proof.
  intros Hr Hb. destruct (reachable_keys _ Hr) as [Ka Kl].
  destruct (dispatch_cases e g Hb) as [[l ->]| ->].
  - by apply ApplyHoverEffect_returns.
  - by apply RemoveHoverEffect_returns.
Qed.

(** X10.  In a state reached from a constructed widget, no run of hover
    events fails: every handler and every call of the two effects, on any
    pointer, returns, because each element with a snapshot is a live
    button. *)
Theorem hover_events_never_fail es : forall g,
  reachable g -> hover_only es = true ->
  exists g', play es g = Some (tt, g').
Proof.
  induction es as [|e es IH]; intros g Hr Hh.
  - by exists g.
  - simpl in Hh. apply andb_prop in Hh as [He Hh].
    apply negb_true_iff in He.
    destruct (hover_event_returns e g Hr He) as [g1 E1].
    destruct (IH g1) as [g' E']; [by eapply reachable_step|done|].
    exists g'. simpl. unfold bind. by rewrite E1.
Qed.

Lemma hover_events_never_fail_witness :
  exists g',
    play [EvInvoke OnQuitButtonUnhovered_fn; EvApply (Some 9%positive);
          EvInvoke OnPlayButtonHovered_fn; EvRemove None] bound_menu =
    Some (tt, g').
Proof.
  apply (hover_events_never_fail
           [EvInvoke OnQuitButtonUnhovered_fn; EvApply (Some 9%positive);
            EvInvoke OnPlayButtonHovered_fn; EvRemove None] bound_menu).
  - apply (reachable_step (menu one one) EvBind).
    + apply reachable_constructed. split; reflexivity.
    + vm_compute. reflexivity.
  - reflexivity.
Defined.

(** *** Sounds *)

Lemma BindButtonHoverEffects_played g g' :
  BindButtonHoverEffects g = Some (tt, g') -> Played g' = Played g.
Proof.
  intros E. apply BindButtonHoverEffects_inv in E as (g1&g2&g3&E1&E2&E3&E4).
  apply BindButton_effect in E1 as (_&_&P1&_).
  apply BindButton_effect in E2 as (_&_&P2&_).
  apply BindButton_effect in E3 as (_&_&P3&_).
  apply BindButton_effect in E4 as (_&_&P4&_).
  congruence.
Qed.

(** X11.  Only a hover handler plays a sound, and it plays at most one:
    after any event the audio log is as before, unless the event is a hover
    handler on a widget with [bPlaySoundOnHover] set and a [HoverSound], in
    which case that one sound was added.  Binding, the unhover handlers and
    direct calls of the two effects are silent. *)
Theorem only_hover_handlers_play_one_sound e g g' :
  dispatch e g = Some (tt, g') ->
  Played g' = Played g \/
  exists k s,
    e = EvInvoke (hovered_handler k) /\
    bPlaySoundOnHover (This g) = true /\
    HoverSound (This g) = Some s /\
    Played g' = s :: Played g.
Proof.
  destruct e as [|f|B|B]; simpl; intros E.
  - left. by apply BindButtonHoverEffects_played.
  - destruct (handler_cases f) as [[k ->]|[k ->]].
    + rewrite hovered_handler_run in E.
      apply ApplyHoverEffect_frame in E as (_&P&_). simpl in P.
      unfold sound_log in P.
      destruct (bPlaySoundOnHover (This g)) eqn:Eb; [|by left].
      destruct (HoverSound (This g)) as [s|] eqn:Es; [|by left].
      right. by exists k, s.
    + rewrite unhovered_handler_run in E.
      apply RemoveHoverEffect_frame in E as (_&P&_). by left.
  - apply ApplyHoverEffect_frame in E as (_&P&_). by left.
  - apply RemoveHoverEffect_frame in E as (_&P&_). by left.
Qed.

Lemma only_hover_handlers_play_one_sound_witness :
  let g' := match exec OnQuitButtonHovered bound_menu with
            | Some g => g | None => bound_menu end in
  Played g' = Played bound_menu \/
  exists k s,
    EvInvoke OnQuitButtonHovered_fn = EvInvoke (hovered_handler k) /\
    bPlaySoundOnHover (This bound_menu) = true /\
    HoverSound (This bound_menu) = Some s /\
    Played g' = s :: Played bound_menu.
Proof.
  apply (only_hover_handlers_play_one_sound (EvInvoke OnQuitButtonHovered_fn)
           bound_menu).
  vm_compute. reflexivity.
Defined.

(** *** The hover transform *)

(** X18.  On hover of a known, live element the transform applied is the
    stored one with its scale replaced: translation, shear and angle are
    those of the snapshot (not those the element shows at that moment), and
    the scale is [HoverScaleMultiplier] on both axes. *)
Theorem hover_replaces_only_the_scale g b t c o :
  OriginalTransforms (This g) !! b = Some t ->
  OriginalColors (This g) !! b = Some c ->
  Buttons g !! b = Some o ->
  exists g' o',
    ApplyHoverEffect (Some b) g = Some (tt, g') /\
    Buttons g' !! b = Some o' /\
    Translation (RenderTransform o') = Translation t /\
    Shear (RenderTransform o') = Shear t /\
    Angle (RenderTransform o') = Angle t /\
    Scale (RenderTransform o') =
      mkVector2D (HoverScaleMultiplier (This g)) (HoverScaleMultiplier (This g)).
Proof.
  intros Et Ec Eo. eexists _, _.
  split; [by apply ApplyHoverEffect_known|].
  simpl. by rewrite lookup_insert_eq.
Qed.

Lemma hover_replaces_only_the_scale_witness :
  exists g' o',
    ApplyHoverEffect (Some 4%positive) bound_menu = Some (tt, g') /\
    Buttons g' !! 4%positive = Some o' /\
    Translation (RenderTransform o') = Translation (identity_transform one one) /\
    Shear (RenderTransform o') = Shear (identity_transform one one) /\
    Angle (RenderTransform o') = Angle (identity_transform one one) /\
    Scale (RenderTransform o') =
      mkVector2D (HoverScaleMultiplier (This bound_menu))
                 (HoverScaleMultiplier (This bound_menu)).
Proof.
  apply (hover_replaces_only_the_scale bound_menu 4%positive
           (identity_transform one one) white
           (mkButton (identity_transform one one) white
                     [OnQuitButtonHovered_fn] [OnQuitButtonUnhovered_fn]));
    vm_compute; reflexivity.
Defined.

End MainMenuMore.


(** * Further properties of the game instance *)

Module GameInstanceMore.
Import GameInstance GameInstanceFacts.

(** *** What the two methods display *)

(** X12.  When the loading screen widget is created, [Init] makes it the
    current widget and adds it to the viewport at z-order 0, after whatever
    is displayed already; a player controller, if there is one, gets UI-only
    input focused on that widget with the cursor hidden, and a missing
    controller is tolerated; the timer for [ShowMainMenu] is queued after
    the pending ones and its handle is kept. *)
Theorem Init_displays_the_loading_screen s cls :
  LoadingScreenWidgetClass (This s) = Some cls ->
  CanCreateWidget (Host s) cls = true ->
  exists s',
    Init s = Some (tt, s') /\
    let w := mkUserWidget (NextObject (Host s)) cls in
    CurrentWidget (This s') = Some w /\
    Viewport (Host s') = Viewport (Host s) ++ [(w, 0)] /\
    PlayerController (Host s') = ui_only (PlayerController (Host s)) w false /\
    Timers (Host s') =
      Timers (Host s) ++
      [mkTimerData (NextHandle (Host s)) ShowMainMenu_fn
                   (LoadingScreenDuration (This s)) false (deadline s)] /\
    LoadingTimerHandle (This s') = Some (NextHandle (Host s)).
Proof.
  destruct s as [[lc mc d cw th] [v n can pc ts nh t]].
  unfold deadline. simpl. intros -> Hc.
  unfold_calls. rewrite Hc. simpl.
  destruct pc as [c|]; simpl; eexists; (split; [reflexivity|]); done.
Qed.

Lemma Init_displays_the_loading_screen_witness :
  exists s',
    Init configured = Some (tt, s') /\
    let w := mkUserWidget (NextObject (Host configured)) 1%positive in
    CurrentWidget (This s') = Some w /\
    Viewport (Host s') = Viewport (Host configured) ++ [(w, 0)] /\
    PlayerController (Host s') =
      ui_only (PlayerController (Host configured)) w false /\
    Timers (Host s') =
      Timers (Host configured) ++
      [mkTimerData (NextHandle (Host configured)) ShowMainMenu_fn
                   (LoadingScreenDuration (This configured)) false
                   (deadline configured)] /\
    LoadingTimerHandle (This s') = Some (NextHandle (Host configured)).
Proof.
  apply (Init_displays_the_loading_screen configured 1%positive); reflexivity.
Defined.

Lemma ShowMainMenu_with_menu s cls :
  MainMenuWidgetClass (This s) = Some cls ->
  CanCreateWidget (Host s) cls = true ->
  exists s',
    ShowMainMenu s = Some (tt, s') /\
    CurrentWidget (This s') = Some (mkUserWidget (NextObject (Host s)) cls) /\
    Viewport (Host s') =
      without_current s ++ [(mkUserWidget (NextObject (Host s)) cls, 0)] /\
    PlayerController (Host s') =
      ui_only (PlayerController (Host s))
              (mkUserWidget (NextObject (Host s)) cls) true /\
    NextObject (Host s') = Pos.succ (NextObject (Host s)) /\
    MainMenuWidgetClass (This s') = Some cls /\
    CanCreateWidget (Host s') = CanCreateWidget (Host s).
Proof.
  destruct s as [[lc mc d cw th] [v n can pc ts nh t]].
  unfold without_current. simpl. intros -> Hc.
  unfold_calls.
  destruct cw as [w0|]; simpl; rewrite Hc; simpl;
    destruct pc as [c|]; simpl; eexists; (split; [reflexivity|]); done.
Qed.

(** X13.  When the main menu widget is created, [ShowMainMenu] takes the
    current widget (and only it) out of the viewport, makes the new widget
    current and adds it at z-order 0; a player controller, if there is one,
    gets UI-only input focused on the menu with the cursor visible. *)
Theorem ShowMainMenu_replaces_the_current_widget s cls :
  MainMenuWidgetClass (This s) = Some cls ->
  CanCreateWidget (Host s) cls = true ->
  exists s',
    ShowMainMenu s = Some (tt, s') /\
    let w := mkUserWidget (NextObject (Host s)) cls in
    CurrentWidget (This s') = Some w /\
    Viewport (Host s') = without_current s ++ [(w, 0)] /\
    PlayerController (Host s') = ui_only (PlayerController (Host s)) w true.
Proof.
  destruct s as [[lc mc d cw th] [v n can pc ts nh t]].
  unfold without_current. simpl. intros -> Hc.
  unfold_calls.
  destruct cw as [w0|]; simpl; rewrite Hc; simpl;
    destruct pc as [c|]; simpl; eexists; (split; [reflexivity|]); done.
Qed.

Lemma ShowMainMenu_replaces_the_current_widget_witness :
  exists s',
    ShowMainMenu (exec Init configured) = Some (tt, s') /\
    let w := mkUserWidget (NextObject (Host (exec Init configured))) 2%positive in
    CurrentWidget (This s') = Some w /\
    Viewport (Host s') = without_current (exec Init configured) ++ [(w, 0)] /\
    PlayerController (Host s') =
      ui_only (PlayerController (Host (exec Init configured))) w true.
Proof.
  apply (ShowMainMenu_replaces_the_current_widget (exec Init configured)
           2%positive); reflexivity.
Defined.

(** X14.  When no main menu class is configured, or its widget cannot be
    created, [ShowMainMenu] still takes the current widget out of the
    viewport and leaves no current widget; nothing is added, and the player
    controller keeps the input mode and cursor it had. *)
Theorem ShowMainMenu_without_menu_only_removes s :
  match MainMenuWidgetClass (This s) with
  | Some cls => CanCreateWidget (Host s) cls = false
  | None => True
  end ->
  exists s',
    ShowMainMenu s = Some (tt, s') /\
    CurrentWidget (This s') = None /\
    Viewport (Host s') = without_current s /\
    PlayerController (Host s') = PlayerController (Host s).
Proof.
  destruct s as [[lc mc d cw th] [v n can pc ts nh t]].
  unfold without_current. simpl. intros H.
  unfold_calls.
  destruct cw as [w0|], mc as [cls|]; simpl; rewrite ?H; simpl; eauto.
Qed.

Lemma ShowMainMenu_without_menu_witness :
  let s := mkSystem (mkGameInstance (Some 1%positive) None (Float32.of_Z 2)
                                    None None) fresh_engine in
  exists s',
    ShowMainMenu (exec Init s) = Some (tt, s') /\
    CurrentWidget (This s') = None /\
    Viewport (Host s') = without_current (exec Init s) /\
    PlayerController (Host s') = PlayerController (Host (exec Init s)).
Proof.
  apply (ShowMainMenu_without_menu_only_removes
           (exec Init (mkSystem (mkGameInstance (Some 1%positive) None
                                   (Float32.of_Z 2) None None) fresh_engine))).
  exact I.
Defined.

(** *** The timer and the clock *)

Lemma ShowMainMenu_keeps_timers s s' :
  ShowMainMenu s = Some (tt, s') ->
  Timers (Host s') = Timers (Host s) /\
  NextHandle (Host s') = NextHandle (Host s) /\
  InternalTime (Host s') = InternalTime (Host s) /\
  LoadingTimerHandle (This s') = LoadingTimerHandle (This s) /\
  LoadingScreenWidgetClass (This s') = LoadingScreenWidgetClass (This s) /\
  MainMenuWidgetClass (This s') = MainMenuWidgetClass (This s) /\
  LoadingScreenDuration (This s') = LoadingScreenDuration (This s).
Proof.
  destruct s as [[lc mc d cw th] [v n can pc ts nh t]].
  unfold_calls.
  destruct cw as [w0|], mc as [cls|]; simpl;
    try destruct (can cls); simpl;
    destruct pc as [c|]; simpl; intros [= <-]; done.
Qed.

(** X15.  [ShowMainMenu] never touches the timer manager or the
    configuration: the pending timers, the stored timer handle, the clock,
    both widget classes and the duration are after the call what they were
    before.  In particular a call made by hand while the loading screen is
    up does not cancel the timer set by [Init]: when the clock then reaches
    the deadline, [ShowMainMenu] is called once more. *)
Theorem ShowMainMenu_does_not_cancel_the_timer s cls :
  at_startup s ->
  LoadingScreenWidgetClass (This s) = Some cls ->
  CanCreateWidget (Host s) cls = true ->
  (forall s0 s0', ShowMainMenu s0 = Some (tt, s0') ->
     Timers (Host s0') = Timers (Host s0) /\
     LoadingTimerHandle (This s0') = LoadingTimerHandle (This s0) /\
     InternalTime (Host s0') = InternalTime (Host s0) /\
     LoadingScreenWidgetClass (This s0') = LoadingScreenWidgetClass (This s0) /\
     MainMenuWidgetClass (This s0') = MainMenuWidgetClass (This s0) /\
     LoadingScreenDuration (This s0') = LoadingScreenDuration (This s0)) /\
  forall clock,
    fired (Init ;; ShowMainMenu ;; Run clock) s =
      Some (if reached (deadline s) clock then [ShowMainMenu_fn] else []).
Proof.
  intros Hs Hl Hc. split.
  - intros s0 s0' E. apply ShowMainMenu_keeps_timers in E. tauto.
  - intros clock.
    destruct (Init_with_widget s cls Hs Hl Hc) as (s1 & E1 & T1).
    destruct (ShowMainMenu_total s1) as (s2 & E2 & T2).
    rewrite T1 in T2.
    destruct (Run_single clock s2 _ _ _ T2) as (s3 & E3).
    unfold fired, bind. by rewrite E1, E2, E3.
Qed.

Lemma ShowMainMenu_does_not_cancel_witness :
  (forall s0 s0', ShowMainMenu s0 = Some (tt, s0') ->
     Timers (Host s0') = Timers (Host s0) /\
     LoadingTimerHandle (This s0') = LoadingTimerHandle (This s0) /\
     InternalTime (Host s0') = InternalTime (Host s0) /\
     LoadingScreenWidgetClass (This s0') = LoadingScreenWidgetClass (This s0) /\
     MainMenuWidgetClass (This s0') = MainMenuWidgetClass (This s0) /\
     LoadingScreenDuration (This s0') = LoadingScreenDuration (This s0)) /\
  forall clock,
    fired (Init ;; ShowMainMenu ;; Run clock) configured =
      Some (if reached (deadline configured) clock
            then [ShowMainMenu_fn] else []).
Proof.
  apply (ShowMainMenu_does_not_cancel_the_timer configured 1%positive).
  - repeat split; reflexivity.
  - reflexivity.
  - reflexivity.
Defined.

(** *** At most one widget is displayed *)

Lemma shows_current_retimed ts now s :
  shows_current s -> shows_current (retimed ts now s).
Proof. done. Qed.

Lemma fire_shows_current ts : forall s,
  shows_current s ->
  exists fs s', fire ts s = Some (fs, s') /\ shows_current s'.
Proof.
  induction ts as [|t ts IH]; intros s Hs; simpl.
  - by exists [], s.
  - destruct (Delegate t). simpl.
    destruct (ShowMainMenu_shows_current s Hs) as (s1 & E1 & H1 & _).
    destruct (IH s1 H1) as (fs & s2 & E2 & H2).
    exists (ShowMainMenu_fn :: fs), s2. unfold bind, ret.
    by rewrite E1, E2.
Qed.

Lemma Tick_retimed now s :
  Tick now s =
    fire (List.filter (expired now) (Timers (Host s)))
         (retimed (List.filter (fun t => negb (expired now t)) (Timers (Host s)) ++
                   flat_map requeue (List.filter (expired now) (Timers (Host s))))
                  now s).
Proof. by destruct s as [gi [v n can pc ts nh t]]. Qed.

Lemma step_shows_current e s :
  shows_current s -> exists s', step e s = Some (tt, s') /\ shows_current s'.
Proof.
  intros Hs. destruct e as [|now]; simpl.
  - destruct (ShowMainMenu_shows_current s Hs) as (s1 & E1 & H1 & _). eauto.
  - unfold bind. rewrite Tick_retimed.
    match goal with |- context [fire ?ts ?x] =>
      destruct (fire_shows_current ts x) as (fs & s1 & E1 & H1) end.
    { by apply shows_current_retimed. }
    rewrite E1. eauto.
Qed.

(** X16.  From startup, [Init] followed by any sequence of calls of
    [ShowMainMenu] and ticks of the clock never fails, and at every point
    the viewport holds the current widget and nothing else: at most one
    widget is displayed. *)
Theorem at_most_one_widget_is_displayed es : forall s,
  at_startup s ->
  exists s', (Init ;; steps es) s = Some (tt, s') /\ shows_current s'.
Proof.
  intros s Hs. destruct (Init_shows_current s Hs) as (s1 & E1 & H1).
  unfold bind at 1. rewrite E1. clear E1 Hs s.
  revert s1 H1. induction es as [|e es IH]; intros s Hs; simpl.
  - by exists s.
  - destruct (step_shows_current e s Hs) as (s1 & E1 & H1).
    destruct (IH s1 H1) as (s2 & E2 & H2).
    exists s2. unfold bind at 1. by rewrite E1.
Qed.

Lemma at_most_one_widget_is_displayed_witness :
  exists s',
    (Init ;; steps [StepTick (Float32.of_Z 1); StepShowMainMenu;
                    StepTick (Float32.of_Z 3); StepShowMainMenu]) configured =
      Some (tt, s') /\
    shows_current s'.
Proof.
  apply (at_most_one_widget_is_displayed
           [StepTick (Float32.of_Z 1); StepShowMainMenu;
            StepTick (Float32.of_Z 3); StepShowMainMenu] configured).
  repeat split; reflexivity.
Defined.

(** *** From the loading screen to the main menu *)

(** Idle ticks change the clock only. *)
Lemma Run_idle_state clock : forall s,
  Timers (Host s) = [] ->
  exists s',
    Run clock s = Some ([], s') /\
    Timers (Host s') = [] /\ This s' = This s /\
    Viewport (Host s') = Viewport (Host s) /\
    PlayerController (Host s') = PlayerController (Host s).
Proof.
  induction clock as [|now rest IH]; intros s Hs; simpl.
  - by exists s.
  - destruct (IH (retimed [] now s) eq_refl) as (s2 & E2 & T2 & W2 & V2 & P2).
    exists s2. unfold bind at 1. rewrite Tick_retimed, Hs. simpl.
    unfold ret at 1. unfold bind. rewrite E2. done.
Qed.

(** The state of the flow, as far as it is observed, over a run of the
    clock with the single-shot timer for [ShowMainMenu] pending. *)
Lemma Run_flow clock : forall s h r d,
  Timers (Host s) = [mkTimerData h ShowMainMenu_fn r false d] ->
  shows_current s ->
  exists s',
    Run clock s =
      Some (if reached d clock then [ShowMainMenu_fn] else [], s') /\
    shows_current s' /\
    if reached d clock then
      current_class s' = menu_class s /\
      Timers (Host s') = [] /\
      cursor_shown s' =
        match menu_class s with
        | Some _ => match cursor_shown s with Some _ => Some true | None => None end
        | None => cursor_shown s
        end
    else
      current_class s' = current_class s /\
      Timers (Host s') = [mkTimerData h ShowMainMenu_fn r false d] /\
      cursor_shown s' = cursor_shown s.
Proof.
  induction clock as [|now rest IH]; intros s h r d Ht Hs; simpl.
  - by exists s.
  - unfold bind at 1. rewrite Tick_retimed, Ht. simpl.
    unfold expired at 1 2 3. simpl.
    destruct (Float32.leb d now) eqn:El; simpl.
    + destruct (ShowMainMenu_shows_current (retimed [] now s))
        as (s1 & E1 & H1 & C1 & _ & K1); [done|].
      destruct (ShowMainMenu_total (retimed [] now s)) as (s1' & E1' & T1).
      rewrite E1 in E1'. injection E1' as <-. simpl in T1.
      destruct (Run_idle_state rest s1 T1) as (s2 & E2 & T2 & W2 & V2 & P2).
      exists s2. unfold bind, ret. rewrite E1, E2. simpl.
      split; [done|]. split.
      { unfold shows_current in *. by rewrite V2, W2. }
      split; [|split; [done|]].
      * unfold current_class. rewrite W2. exact C1.
      * unfold cursor_shown. rewrite P2. exact K1.
    + destruct (IH (retimed [mkTimerData h ShowMainMenu_fn r false d] now s)
                  h r d eq_refl Hs) as (s2 & E2 & H2 & R2).
      exists s2. unfold ret at 1. unfold bind, ret. rewrite E2. simpl.
      split; [done|]. split; [done|]. exact R2.
Qed.

(** [Init] with a loading screen, from startup, as far as it is observed. *)
Lemma Init_flow s lc :
  at_startup s ->
  LoadingScreenWidgetClass (This s) = Some lc ->
  CanCreateWidget (Host s) lc = true ->
  exists s',
    Init s = Some (tt, s') /\
    shows_current s' /\
    current_class s' = Some lc /\
    menu_class s' = menu_class s /\
    Timers (Host s') =
      [mkTimerData (NextHandle (Host s)) ShowMainMenu_fn
                   (LoadingScreenDuration (This s)) false (deadline s)] /\
    cursor_shown s' =
      match PlayerController (Host s) with
      | Some _ => Some false
      | None => None
      end.
Proof.
  destruct s as [[l mc d cw th] [v n can pc ts nh t]].
  unfold at_startup, shows_current, current_class, menu_class, cursor_shown,
    deadline. simpl. intros (-> & -> & ->) -> Hc.
  unfold_calls. rewrite Hc. simpl.
  destruct pc as [c|]; simpl; eexists; (split; [reflexivity|]); done.
Qed.

(** X17.  The whole flow, with the engine's timer manager modelled as a
    queue that calls an expired single-shot timer once.  From startup with a
    loading screen and a main menu that can both be created, [Init] followed
    by any run of the clock never fails; as long as the clock has not
    reached the deadline the loading screen is the one widget displayed,
    the timer is pending and the cursor is hidden; once it has,
    [ShowMainMenu] has been called exactly once, the main menu is the one
    widget displayed, no timer is pending and the cursor is visible. *)
Theorem loading_screen_then_main_menu s lc mc clock :
  at_startup s ->
  LoadingScreenWidgetClass (This s) = Some lc ->
  CanCreateWidget (Host s) lc = true ->
  MainMenuWidgetClass (This s) = Some mc ->
  CanCreateWidget (Host s) mc = true ->
  exists s',
    (Init ;; Run clock) s =
      Some (if reached (deadline s) clock then [ShowMainMenu_fn] else [], s') /\
    if reached (deadline s) clock then
      displayed_classes s' = [mc] /\ current_class s' = Some mc /\
      Timers (Host s') = [] /\
      cursor_shown s' =
        match PlayerController (Host s) with Some _ => Some true | None => None end
    else
      displayed_classes s' = [lc] /\ current_class s' = Some lc /\
      length (Timers (Host s')) = 1%nat /\
      cursor_shown s' =
        match PlayerController (Host s) with Some _ => Some false | None => None end.
Proof.
  intros Hs Hl Hlc Hm Hmc.
  destruct (Init_flow s lc Hs Hl Hlc) as (s1 & E1 & H1 & C1 & M1 & T1 & K1).
  destruct (Run_flow clock s1 _ _ _ T1 H1) as (s2 & E2 & H2 & R2).
  assert (Mc : menu_class s1 = Some mc).
  { rewrite M1. unfold menu_class. by rewrite Hm, Hmc. }
  assert (D : forall c, current_class s2 = Some c -> displayed_classes s2 = [c]).
  { intros c. unfold displayed_classes, current_class. rewrite H2.
    destruct (CurrentWidget (This s2)); [|done]. simpl. congruence. }
  exists s2. unfold bind. rewrite E1. split; [exact E2|].
  destruct (reached (deadline s) clock).
  - destruct R2 as (C2 & T2 & K2). rewrite Mc in C2, K2. rewrite K1 in K2.
    repeat split; auto. rewrite K2. by destruct (PlayerController (Host s)).
  - destruct R2 as (C2 & T2 & K2). rewrite C1 in C2. rewrite K1 in K2.
    repeat split; auto. by rewrite T2.
Qed.

Lemma loading_screen_then_main_menu_witness :
  exists s',
    (Init ;; Run [Float32.of_Z 1; Float32.of_Z 2; Float32.of_Z 3]) configured =
      Some (if reached (deadline configured)
                       [Float32.of_Z 1; Float32.of_Z 2; Float32.of_Z 3]
            then [ShowMainMenu_fn] else [], s') /\
    if reached (deadline configured)
               [Float32.of_Z 1; Float32.of_Z 2; Float32.of_Z 3] then
      displayed_classes s' = [2%positive] /\
      current_class s' = Some 2%positive /\
      Timers (Host s') = [] /\
      cursor_shown s' =
        match PlayerController (Host configured) with
        | Some _ => Some true | None => None end
    else
      displayed_classes s' = [1%positive] /\
      current_class s' = Some 1%positive /\
      length (Timers (Host s')) = 1%nat /\
      cursor_shown s' =
        match PlayerController (Host configured) with
        | Some _ => Some false | None => None end.
Proof.
  apply (loading_screen_then_main_menu configured 1%positive 2%positive
           [Float32.of_Z 1; Float32.of_Z 2; Float32.of_Z 3]).
  - repeat split; reflexivity.
  - reflexivity.
  - reflexivity.
  - reflexivity.
  - reflexivity.
Defined.

(** *** Calling the transition again creates a new menu *)

Lemma filter_not_same_widget w v :
  Forall (fun x => same_widget (fst x) w = false)
         (List.filter (fun x : UUserWidget * Z => negb (same_widget (fst x) w)) v).
Proof.
  apply Forall_forall. intros x Hx. apply list_elem_of_In, filter_In in Hx as [_ Hx].
  by apply negb_true_iff.
Qed.

(** X19.  When the main menu can be created, a second call of
    [ShowMainMenu] does not keep the menu of the first call: it creates a new
    widget object, makes it current, and the first menu is no longer in the
    viewport. *)
Theorem ShowMainMenu_again_recreates_the_menu s cls :
  MainMenuWidgetClass (This s) = Some cls ->
  CanCreateWidget (Host s) cls = true ->
  exists s1 s2 w1 w2,
    ShowMainMenu s = Some (tt, s1) /\
    ShowMainMenu s1 = Some (tt, s2) /\
    CurrentWidget (This s1) = Some w1 /\
    CurrentWidget (This s2) = Some w2 /\
    WidgetId w2 = Pos.succ (WidgetId w1) /\
    same_widget w2 w1 = false /\
    Forall (fun x => same_widget (fst x) w1 = false)
           (without_current s1) /\
    Viewport (Host s2) = without_current s1 ++ [(w2, 0)].
Proof.
  intros Hm Hc.
  destruct (ShowMainMenu_with_menu s cls Hm Hc) as (s1&E1&W1&V1&_&N1&M1&C1).
  destruct (ShowMainMenu_with_menu s1 cls M1) as (s2&E2&W2&V2&_&_&_&_).
  { by rewrite C1. }
  eexists s1, s2, _, _.
  split; [exact E1|]. split; [exact E2|]. split; [exact W1|].
  split; [exact W2|]. simpl. split; [by rewrite N1|]. split.
  - unfold same_widget. simpl. rewrite N1. apply Pos.eqb_neq. lia.
  - split; [|exact V2]. unfold without_current. rewrite W1.
    apply filter_not_same_widget.
Qed.

Lemma ShowMainMenu_again_recreates_witness :
  exists s1 s2 w1 w2,
    ShowMainMenu (exec Init configured) = Some (tt, s1) /\
    ShowMainMenu s1 = Some (tt, s2) /\
    CurrentWidget (This s1) = Some w1 /\
    CurrentWidget (This s2) = Some w2 /\
    WidgetId w2 = Pos.succ (WidgetId w1) /\
    same_widget w2 w1 = false /\
    Forall (fun x => same_widget (fst x) w1 = false)
           (without_current s1) /\
    Viewport (Host s2) = without_current s1 ++ [(w2, 0)].
Proof.
  apply (ShowMainMenu_again_recreates_the_menu (exec Init configured)
           2%positive); reflexivity.
Defined.

End GameInstanceMore.
